(** * ChLinkDistance: the distance constraint between two rigid bodies

    A shallow embedding of [src/chrono/physics/ChLinkDistance.cpp] and the
    properties of its solver bookkeeping protocol.

    - C++ [double] is IEEE-754 binary64, taken from the Standard Library's
      executable specification [SpecFloat] (precision 53, [emax] 1024,
      round to nearest even; a NaN carries no payload).
    - A member function is a function of the object ([this]) that returns
      the new object; reference parameters that are written come back in
      the result.
    - Dereferencing a null body pointer, or indexing a vector outside its
      size, is undefined behaviour in the source: the embedding returns
      [None] there, and [Some] of the result everywhere else.  *)

From Stdlib Require Import ZArith Bool Lia.
From Stdlib Require Import Floats.SpecFloat.
From stdpp Require Import base option list strings.

Set Default Proof Using "Type".

(** ** Binary64 arithmetic *)

Module Double.

Definition prec : Z := 53.
Definition emax : Z := 1024.

Definition double : Type := spec_float.

Definition add : double -> double -> double := SFadd prec emax.
Definition sub : double -> double -> double := SFsub prec emax.
Definition mul : double -> double -> double := SFmul prec emax.
Definition div : double -> double -> double := SFdiv prec emax.
Definition sqrt : double -> double := SFsqrt prec emax.
Definition neg : double -> double := SFopp.

(** The comparisons [a < b] and [a > b]; both are false on a NaN. *)
Definition lt (a b : double) : bool := SFltb a b.
Definition gt (a b : double) : bool := SFltb b a.

(** Conversion of an integer literal ([0], [1], ...) to [double]. *)
Definition of_int (n : Z) : double := binary_normalize prec emax n 0 false.

Definition zero : double := S754_zero false.
Definition one : double := Eval vm_compute in of_int 1.
Definition minus_one : double := Eval vm_compute in of_int (-1).
Definition two : double := Eval vm_compute in of_int 2.
Definition three : double := Eval vm_compute in of_int 3.
Definition ten : double := Eval vm_compute in of_int 10.
Definition half : double := Eval vm_compute in div (of_int 1) (of_int 2).

Definition is_nan (a : double) : bool :=
  match a with S754_nan => true | _ => false end.

(** A zero or a non-zero finite number: neither an infinity nor a NaN. *)
Definition is_finite (a : double) : bool :=
  match a with
  | S754_zero _ | S754_finite _ _ _ => true
  | S754_infinity _ | S754_nan => false
  end.

(** Numerically zero ([a == 0.0] holds for both signed zeros). *)
Definition is_zero (a : double) : bool :=
  match a with S754_zero _ => true | _ => false end.

End Double.

Import Double.

Declare Scope double_scope.
Delimit Scope double_scope with D.
Bind Scope double_scope with double.
Infix "+" := add : double_scope.
Infix "-" := sub : double_scope.
Infix "*" := mul : double_scope.
Infix "/" := div : double_scope.
Notation "- a" := (neg a) : double_scope.

(** Modelled from the spec: [ChMax] and [ChMin] (chrono/core/ChMathematics.h,
    absent from the sources) are the maximum and the minimum of two values,
    the two halves of the protocol's clamp.  They are taken as the usual
    comparison and selection. *)
Definition ChMax (a b : double) : double := if gt a b then a else b.
Definition ChMin (a b : double) : double := if lt a b then a else b.

(** ** Three-dimensional vectors *)

Record ChVector : Type := mkChVector { vx : double; vy : double; vz : double }.

Definition VNULL : ChVector := mkChVector zero zero zero.

(** [a - b] and [-a] on vectors: component by component. *)
Definition Vsub (a b : ChVector) : ChVector :=
  mkChVector (vx a - vx b)%D (vy a - vy b)%D (vz a - vz b)%D.
Definition Vneg (a : ChVector) : ChVector :=
  mkChVector (- vx a)%D (- vy a)%D (- vz a)%D.
Definition Vadd (a b : ChVector) : ChVector :=
  mkChVector (vx a + vx b)%D (vy a + vy b)%D (vz a + vz b)%D.
Definition Vscale (a : ChVector) (k : double) : ChVector :=
  mkChVector (vx a * k)%D (vy a * k)%D (vz a * k)%D.

(** Modelled from the spec: [ChVector::Length] (chrono/core/ChVector.h, absent
    from the sources) is the Euclidean norm of the vector. *)
Definition Length (a : ChVector) : double :=
  sqrt (vx a * vx a + vy a * vy a + vz a * vz a)%D.

(** Modelled from the spec: [Vcross] (absent from the sources) is the cross
    product of two vectors. *)
Definition Vcross (a b : ChVector) : ChVector :=
  mkChVector (vy a * vz b - vz a * vy b)%D
             (vz a * vx b - vx a * vz b)%D
             (vx a * vy b - vy a * vx b)%D.

(** Modelled from the spec: a normalisation that scales the vector by the
    reciprocal of its length, with no provision for the zero vector.  The
    element is verified for an arbitrary [Vnorm] (a parameter of [Update]
    below); this instance serves the concrete scenarios. *)
Definition Vnorm_scaled (a : ChVector) : ChVector :=
  Vscale a (one / Length a)%D.

(** ** Global vectors of the solver *)

(** [ChVectorDynamic<>] and [ChStateDelta]: a dynamically sized vector of
    doubles, read with [v !! i] and written with [<[i:=a]> v]. *)
Abbreviation ChVectorDynamic := (list double).
Abbreviation ChStateDelta := (list double).

(** ** Body frames *)

(** The handle of a block of six generalised velocities: its offset in the
    global vectors. *)
Definition ChVariables : Type := nat.

(** Modelled from the spec: the body/frame provider (ChBodyFrame, absent from
    the sources) exposes the point and direction transforms between the local
    and the world frame and a handle to its variable block; the element only
    reads them. *)
Record ChBodyFrame : Type := mkChBodyFrame {
  TransformPointLocalToParent : ChVector -> ChVector;
  TransformPointParentToLocal : ChVector -> ChVector;
  TransformDirectionParentToLocal : ChVector -> ChVector;
  Variables : ChVariables
}.

(** A body whose frame is the world frame translated to [p] (no rotation). *)
Definition translated_body (p : ChVector) (vars : ChVariables) : ChBodyFrame :=
  {| TransformPointLocalToParent := fun v => Vadd p v;
     TransformPointParentToLocal := fun v => Vsub v p;
     TransformDirectionParentToLocal := fun v => v;
     Variables := vars |}.

(** ** The scalar constraint primitive *)

Inductive eChConstraintMode : Type := CONSTRAINT_LOCK | CONSTRAINT_UNILATERAL.

(** One row of the Jacobian over a body's six degrees of freedom. *)
Record ChRowVector6 : Type := mkRow6 {
  c0 : double; c1 : double; c2 : double;
  c3 : double; c4 : double; c5 : double
}.

(** Modelled from the spec: the scalar constraint primitive
    (ChConstraintTwoBodies, absent from the sources) holds the Jacobian row
    split across the two bodies, the bias term [b_i], the multiplier [l_i],
    its kind, and the references to the two variable blocks. *)
Record ChConstraintTwoBodies : Type := mkCx {
  l_i : double;
  b_i : double;
  c_mode : eChConstraintMode;
  Cq_a : ChRowVector6;
  Cq_b : ChRowVector6;
  variables_a : option ChVariables;
  variables_b : option ChVariables
}.

Module Cx_ops.

Definition Get_l_i (c : ChConstraintTwoBodies) : double := l_i c.
Definition Get_b_i (c : ChConstraintTwoBodies) : double := b_i c.

Definition Set_l_i (a : double) (c : ChConstraintTwoBodies) :=
  mkCx a (b_i c) (c_mode c) (Cq_a c) (Cq_b c) (variables_a c) (variables_b c).
Definition Set_b_i (a : double) (c : ChConstraintTwoBodies) :=
  mkCx (l_i c) a (c_mode c) (Cq_a c) (Cq_b c) (variables_a c) (variables_b c).
Definition SetMode (m : eChConstraintMode) (c : ChConstraintTwoBodies) :=
  mkCx (l_i c) (b_i c) m (Cq_a c) (Cq_b c) (variables_a c) (variables_b c).
Definition Set_Cq_a (r : ChRowVector6) (c : ChConstraintTwoBodies) :=
  mkCx (l_i c) (b_i c) (c_mode c) r (Cq_b c) (variables_a c) (variables_b c).
Definition Set_Cq_b (r : ChRowVector6) (c : ChConstraintTwoBodies) :=
  mkCx (l_i c) (b_i c) (c_mode c) (Cq_a c) r (variables_a c) (variables_b c).
Definition SetVariables (va vb : ChVariables) (c : ChConstraintTwoBodies) :=
  mkCx (l_i c) (b_i c) (c_mode c) (Cq_a c) (Cq_b c) (Some va) (Some vb).

End Cx_ops.

(** ** The distance-constraint element *)

Inductive Mode : Type :=
  | BILATERAL
  | UNILATERAL_MAXDISTANCE
  | UNILATERAL_MINDISTANCE.

Definition Mode_eqb (a b : Mode) : bool :=
  match a, b with
  | BILATERAL, BILATERAL
  | UNILATERAL_MAXDISTANCE, UNILATERAL_MAXDISTANCE
  | UNILATERAL_MINDISTANCE, UNILATERAL_MINDISTANCE => true
  | _, _ => false
  end.

(** The members of [ChLinkDistance] the file reads or writes.  [Body1] and
    [Body2] are raw pointers ([None] is the null pointer); [C] is [C[0]];
    [ChTime] and [link_active] stand for the state of the base class
    [ChLink]. *)
Record ChLinkDistance : Type := mkLink {
  Body1 : option ChBodyFrame;
  Body2 : option ChBodyFrame;
  Cx : ChConstraintTwoBodies;
  pos1 : ChVector;
  pos2 : ChVector;
  distance : double;
  curr_dist : double;
  mode : Mode;
  mode_sign : double;
  C : double;
  react_force : ChVector;
  react_torque : ChVector;
  ChTime : double;
  link_active : bool
}.

Definition set_Body1 (v : option ChBodyFrame) (s : ChLinkDistance) :=
  mkLink v (Body2 s) (Cx s) (pos1 s) (pos2 s) (distance s) (curr_dist s)
         (mode s) (mode_sign s) (C s) (react_force s) (react_torque s)
         (ChTime s) (link_active s).
Definition set_Body2 (v : option ChBodyFrame) (s : ChLinkDistance) :=
  mkLink (Body1 s) v (Cx s) (pos1 s) (pos2 s) (distance s) (curr_dist s)
         (mode s) (mode_sign s) (C s) (react_force s) (react_torque s)
         (ChTime s) (link_active s).
Definition set_Cx (v : ChConstraintTwoBodies) (s : ChLinkDistance) :=
  mkLink (Body1 s) (Body2 s) v (pos1 s) (pos2 s) (distance s) (curr_dist s)
         (mode s) (mode_sign s) (C s) (react_force s) (react_torque s)
         (ChTime s) (link_active s).
Definition set_pos1 (v : ChVector) (s : ChLinkDistance) :=
  mkLink (Body1 s) (Body2 s) (Cx s) v (pos2 s) (distance s) (curr_dist s)
         (mode s) (mode_sign s) (C s) (react_force s) (react_torque s)
         (ChTime s) (link_active s).
Definition set_pos2 (v : ChVector) (s : ChLinkDistance) :=
  mkLink (Body1 s) (Body2 s) (Cx s) (pos1 s) v (distance s) (curr_dist s)
         (mode s) (mode_sign s) (C s) (react_force s) (react_torque s)
         (ChTime s) (link_active s).
Definition set_distance (v : double) (s : ChLinkDistance) :=
  mkLink (Body1 s) (Body2 s) (Cx s) (pos1 s) (pos2 s) v (curr_dist s)
         (mode s) (mode_sign s) (C s) (react_force s) (react_torque s)
         (ChTime s) (link_active s).
Definition set_curr_dist (v : double) (s : ChLinkDistance) :=
  mkLink (Body1 s) (Body2 s) (Cx s) (pos1 s) (pos2 s) (distance s) v
         (mode s) (mode_sign s) (C s) (react_force s) (react_torque s)
         (ChTime s) (link_active s).
Definition set_mode (v : Mode) (s : ChLinkDistance) :=
  mkLink (Body1 s) (Body2 s) (Cx s) (pos1 s) (pos2 s) (distance s) (curr_dist s)
         v (mode_sign s) (C s) (react_force s) (react_torque s)
         (ChTime s) (link_active s).
Definition set_mode_sign (v : double) (s : ChLinkDistance) :=
  mkLink (Body1 s) (Body2 s) (Cx s) (pos1 s) (pos2 s) (distance s) (curr_dist s)
         (mode s) v (C s) (react_force s) (react_torque s)
         (ChTime s) (link_active s).
Definition set_C (v : double) (s : ChLinkDistance) :=
  mkLink (Body1 s) (Body2 s) (Cx s) (pos1 s) (pos2 s) (distance s) (curr_dist s)
         (mode s) (mode_sign s) v (react_force s) (react_torque s)
         (ChTime s) (link_active s).
Definition set_react_force (v : ChVector) (s : ChLinkDistance) :=
  mkLink (Body1 s) (Body2 s) (Cx s) (pos1 s) (pos2 s) (distance s) (curr_dist s)
         (mode s) (mode_sign s) (C s) v (react_torque s)
         (ChTime s) (link_active s).
Definition set_react_torque (v : ChVector) (s : ChLinkDistance) :=
  mkLink (Body1 s) (Body2 s) (Cx s) (pos1 s) (pos2 s) (distance s) (curr_dist s)
         (mode s) (mode_sign s) (C s) (react_force s) v
         (ChTime s) (link_active s).
Definition set_ChTime (v : double) (s : ChLinkDistance) :=
  mkLink (Body1 s) (Body2 s) (Cx s) (pos1 s) (pos2 s) (distance s) (curr_dist s)
         (mode s) (mode_sign s) (C s) (react_force s) (react_torque s)
         v (link_active s).

(** Modelled from the spec: [IsActive] is inherited from the base class
    [ChLink] (absent from the sources); an inactive element is one excluded
    from this simulation phase.  The element carries the answer. *)
Definition IsActive (s : ChLinkDistance) : bool := link_active s.

(** [ChLink::Update(mytime, update_assets)]: "Inherit time changes of parent
    class (ChLink), basically doing nothing". *)
Definition ChLink_Update (mytime : double) (update_assets : bool)
    (s : ChLinkDistance) : ChLinkDistance :=
  set_ChTime mytime s.

(** [ChLinkDistance::SetMode] *)
Definition SetMode (m : Mode) (this : ChLinkDistance) : ChLinkDistance :=
  let this := set_mode m this in
  let this :=
    set_mode_sign
      (if Mode_eqb (mode this) UNILATERAL_MAXDISTANCE then minus_one else one)
      this in
  set_Cx (Cx_ops.SetMode
            (if Mode_eqb (mode this) BILATERAL
             then CONSTRAINT_LOCK else CONSTRAINT_UNILATERAL)
            (Cx this))
         this.

(** [ChLinkDistance::ChLinkDistance()], applied to the object as the base
    class and the member constructors leave it. *)
Definition ChLinkDistance_ctor (this : ChLinkDistance) : ChLinkDistance :=
  let this := set_pos1 VNULL this in
  let this := set_pos2 VNULL this in
  let this := set_distance (of_int 0) this in
  let this := set_curr_dist (of_int 0) this in
  SetMode BILATERAL this.

(** [ChLinkDistance::ChLinkDistance(const ChLinkDistance& other)], applied to
    the object as [ChLink(other)] leaves it. *)
Definition ChLinkDistance_copy (other this : ChLinkDistance)
    : option ChLinkDistance :=
  let this := SetMode (mode other) this in
  let this := set_Body1 (Body1 other) this in
  let this := set_Body2 (Body2 other) this in
  b1 ← Body1 other;
  b2 ← Body2 other;
  let this :=
    set_Cx (Cx_ops.SetVariables (Variables b1) (Variables b2) (Cx this)) this in
  let this := set_pos1 (pos1 other) this in
  let this := set_pos2 (pos2 other) this in
  let this := set_distance (distance other) this in
  let this := set_curr_dist (curr_dist other) this in
  Some this.

(** [ChLinkDistance::Initialize]; the result is the element and the returned
    [int] ([return true] is 1). *)
Definition Initialize (mbody1 mbody2 : option ChBodyFrame)
    (pos_are_relative : bool) (mpos1 mpos2 : ChVector)
    (auto_distance : bool) (mdistance : double) (m : Mode)
    (this : ChLinkDistance) : option (ChLinkDistance * Z) :=
  let this := SetMode m this in
  let this := set_Body1 mbody1 this in
  let this := set_Body2 mbody2 this in
  b1 ← Body1 this;
  b2 ← Body2 this;
  let this :=
    set_Cx (Cx_ops.SetVariables (Variables b1) (Variables b2) (Cx this)) this in
  let this :=
    if pos_are_relative
    then set_pos2 mpos2 (set_pos1 mpos1 this)
    else set_pos2 (TransformPointParentToLocal b2 mpos2)
                  (set_pos1 (TransformPointParentToLocal b1 mpos1) this) in
  let delta_pos :=
    Vsub (TransformPointLocalToParent b1 (pos1 this))
         (TransformPointLocalToParent b2 (pos2 this)) in
  let this := set_curr_dist (Length delta_pos) this in
  let this :=
    if auto_distance
    then set_distance (curr_dist this) this
    else set_distance mdistance this in
  let this :=
    set_C (mode_sign this * (curr_dist this - distance this))%D this in
  Some (this, 1%Z).

(** ** Access to the global vectors *)

(** [v(off) = a]: a write inside the vector's size. *)
Definition write_at (off : nat) (a : double) (v : ChVectorDynamic)
    : option ChVectorDynamic :=
  if decide (off < length v) then Some (<[off := a]> v) else None.

(** [v(off) += a] *)
Definition add_at (off : nat) (a : double) (v : ChVectorDynamic)
    : option ChVectorDynamic :=
  q ← v !! off; Some (<[off := (q + a)%D]> v).

(** Writes to one component of a vector ([react_force.x() = ...]). *)
Definition with_x (a : double) (v : ChVector) := mkChVector a (vy v) (vz v).
Definition with_y (a : double) (v : ChVector) := mkChVector (vx v) a (vz v).
Definition with_z (a : double) (v : ChVector) := mkChVector (vx v) (vy v) a.

(** Modelled from the spec: the solver's registry of active constraints
    (ChSystemDescriptor, absent from the sources), as the list of the
    primitives inserted so far. *)
Abbreviation ChSystemDescriptor := (list ChConstraintTwoBodies).

Definition InsertConstraint (c : ChConstraintTwoBodies)
    (d : ChSystemDescriptor) : ChSystemDescriptor := d ++ [c].

(** Modelled from the spec: [MultiplyTandAdd] of the primitive (absent from
    the sources) adds the transposed Jacobian row times [l] into the residual
    vector, six entries from the offset of each body's variable block.  The
    element is verified for an arbitrary [MultiplyTandAdd]; this instance
    serves the concrete scenarios. *)
Definition add_row (off : nat) (r : ChRowVector6) (l : double)
    (R : ChVectorDynamic) : option ChVectorDynamic :=
  R ← add_at off (c0 r * l)%D R;
  R ← add_at (off + 1) (c1 r * l)%D R;
  R ← add_at (off + 2) (c2 r * l)%D R;
  R ← add_at (off + 3) (c3 r * l)%D R;
  R ← add_at (off + 4) (c4 r * l)%D R;
  add_at (off + 5) (c5 r * l)%D R.

Definition MultiplyTandAdd_rows (c : ChConstraintTwoBodies)
    (R : ChVectorDynamic) (l : double) : option ChVectorDynamic :=
  va ← variables_a c;
  vb ← variables_b c;
  R ← add_row va (Cq_a c) l R;
  add_row vb (Cq_b c) l R.

(** The values [ArchiveIn] reads from the archive, in the order read. *)
Record ArchivedLink : Type := mkArchived {
  ar_distance : double;
  ar_pos1 : ChVector;
  ar_pos2 : ChVector;
  ar_mode : Mode
}.

Section Element.

(** The collaborators whose code is outside the sources: the vector
    normalisation [Vnorm], the primitive's [MultiplyTandAdd], and the
    deserialisation of the parent class. *)
Variable Vnorm : ChVector -> ChVector.
Variable MultiplyTandAdd :
  ChConstraintTwoBodies -> ChVectorDynamic -> double -> option ChVectorDynamic.
Variable ChLink_ArchiveIn : ChLinkDistance -> ChLinkDistance.

(** [ChLinkDistance::Update] *)
Definition Update (mytime : double) (update_assets : bool)
    (this : ChLinkDistance) : option ChLinkDistance :=
  let this := ChLink_Update mytime update_assets this in
  b1 ← Body1 this;
  b2 ← Body2 this;
  let delta_pos :=
    Vsub (TransformPointLocalToParent b1 (pos1 this))
         (TransformPointLocalToParent b2 (pos2 this)) in
  let this := set_curr_dist (Length delta_pos) this in
  let dir_F1_F2_W := Vnorm delta_pos in
  let dir_F1_F2_B2 := TransformDirectionParentToLocal b2 dir_F1_F2_W in
  let dir_F1_F2_B1 := TransformDirectionParentToLocal b1 dir_F1_F2_W in
  let Cq_B1_pos := dir_F1_F2_W in
  let Cq_B2_pos := Vneg dir_F1_F2_W in
  let Cq_B1_rot := Vneg (Vcross dir_F1_F2_B1 (pos1 this)) in
  let Cq_B2_rot := Vcross dir_F1_F2_B2 (pos2 this) in
  let ms := mode_sign this in
  let this :=
    set_Cx (Cx_ops.Set_Cq_a
              {| c0 := (ms * vx Cq_B1_pos)%D;
                 c1 := (ms * vy Cq_B1_pos)%D;
                 c2 := (ms * vz Cq_B1_pos)%D;
                 c3 := (ms * vx Cq_B1_rot)%D;
                 c4 := (ms * vy Cq_B1_rot)%D;
                 c5 := (ms * vz Cq_B1_rot)%D |}
              (Cx this)) this in
  let this :=
    set_Cx (Cx_ops.Set_Cq_b
              {| c0 := (ms * vx Cq_B2_pos)%D;
                 c1 := (ms * vy Cq_B2_pos)%D;
                 c2 := (ms * vz Cq_B2_pos)%D;
                 c3 := (ms * vx Cq_B2_rot)%D;
                 c4 := (ms * vy Cq_B2_rot)%D;
                 c5 := (ms * vz Cq_B2_rot)%D |}
              (Cx this)) this in
  Some (set_C (mode_sign this * (curr_dist this - distance this))%D this).

(** *** State bookkeeping functions *)

(** [IntStateGatherReactions]: the result is the vector [L]. *)
Definition IntStateGatherReactions (off_L : nat) (L : ChVectorDynamic)
    (this : ChLinkDistance) : option ChVectorDynamic :=
  write_at off_L (- vx (react_force this))%D L.

(** [IntStateScatterReactions] *)
Definition IntStateScatterReactions (off_L : nat) (L : ChVectorDynamic)
    (this : ChLinkDistance) : option ChLinkDistance :=
  l ← L !! off_L;
  let this := set_react_force (with_x (- l)%D (react_force this)) this in
  let this := set_react_force (with_y (of_int 0) (react_force this)) this in
  let this := set_react_force (with_z (of_int 0) (react_force this)) this in
  Some (set_react_torque VNULL this).

(** [IntLoadResidual_CqL]: the result is the residual [R]. *)
Definition IntLoadResidual_CqL (off_L : nat) (R L : ChVectorDynamic)
    (c : double) (this : ChLinkDistance) : option ChVectorDynamic :=
  if negb (IsActive this) then Some R
  else l ← L !! off_L; MultiplyTandAdd (Cx this) R (l * c)%D.

(** [IntLoadConstraint_C]: the result is the residual [Qc]. *)
Definition IntLoadConstraint_C (off_L : nat) (Qc : ChVectorDynamic)
    (c : double) (do_clamp : bool) (recovery_clamp : double)
    (this : ChLinkDistance) : option ChVectorDynamic :=
  if negb (IsActive this) then Some Qc
  else if do_clamp then
    if Mode_eqb (mode this) BILATERAL
    then add_at off_L
           (ChMin (ChMax (c * C this) (- recovery_clamp)) recovery_clamp)%D Qc
    else add_at off_L (ChMax (c * C this) (- recovery_clamp))%D Qc
  else add_at off_L (c * C this)%D Qc.

(** [IntToDescriptor] *)
Definition IntToDescriptor (off_v : nat) (v : ChStateDelta)
    (R : ChVectorDynamic) (off_L : nat) (L Qc : ChVectorDynamic)
    (this : ChLinkDistance) : option ChLinkDistance :=
  if negb (IsActive this) then Some this
  else
    l ← L !! off_L;
    let this := set_Cx (Cx_ops.Set_l_i l (Cx this)) this in
    q ← Qc !! off_L;
    Some (set_Cx (Cx_ops.Set_b_i q (Cx this)) this).

(** [IntFromDescriptor]: the result is the vector [L]. *)
Definition IntFromDescriptor (off_v : nat) (v : ChStateDelta)
    (off_L : nat) (L : ChVectorDynamic) (this : ChLinkDistance)
    : option ChVectorDynamic :=
  if negb (IsActive this) then Some L
  else write_at off_L (Cx_ops.Get_l_i (Cx this)) L.

(** *** Solver interfaces *)

(** [InjectConstraints]: the result is the descriptor. *)
Definition InjectConstraints (mdescriptor : ChSystemDescriptor)
    (this : ChLinkDistance) : ChSystemDescriptor :=
  if negb (IsActive this) then mdescriptor
  else InsertConstraint (Cx this) mdescriptor.

(** [ConstraintsBiReset] *)
Definition ConstraintsBiReset (this : ChLinkDistance) : ChLinkDistance :=
  set_Cx (Cx_ops.Set_b_i zero (Cx this)) this.

(** [ConstraintsBiLoad_C] *)
Definition ConstraintsBiLoad_C (factor recovery_clamp : double)
    (do_clamp : bool) (this : ChLinkDistance) : ChLinkDistance :=
  if negb (IsActive this) then this
  else if do_clamp then
    set_Cx (Cx_ops.Set_b_i
              (Cx_ops.Get_b_i (Cx this) +
               ChMin (ChMax (factor * C this) (- recovery_clamp))
                     recovery_clamp)%D
              (Cx this)) this
  else
    set_Cx (Cx_ops.Set_b_i
              (Cx_ops.Get_b_i (Cx this) + factor * C this)%D (Cx this)) this.

(** [ConstraintsLoadJacobians]: "already loaded when doing Update". *)
Definition ConstraintsLoadJacobians (this : ChLinkDistance)
    : ChLinkDistance := this.

(** [ConstraintsFetch_react] *)
Definition ConstraintsFetch_react (factor : double) (this : ChLinkDistance)
    : ChLinkDistance :=
  let this :=
    set_react_force
      (with_x (- Cx_ops.Get_l_i (Cx this) * factor)%D (react_force this))
      this in
  let this := set_react_force (with_y (of_int 0) (react_force this)) this in
  let this := set_react_force (with_z (of_int 0) (react_force this)) this in
  set_react_torque VNULL this.

(** [ArchiveIn], on the values read from the archive. *)
Definition ArchiveIn (marchive : ArchivedLink) (this : ChLinkDistance)
    : option ChLinkDistance :=
  let this := ChLink_ArchiveIn this in
  let this := set_distance (ar_distance marchive) this in
  let this := set_pos1 (ar_pos1 marchive) this in
  let this := set_pos2 (ar_pos2 marchive) this in
  b1 ← Body1 this;
  b2 ← Body2 this;
  let this :=
    set_Cx (Cx_ops.SetVariables (Variables b1) (Variables b2) (Cx this))
           this in
  let mode_temp := ar_mode marchive in
  Some (SetMode mode_temp this).

End Element.

(** ** Concrete elements for the scenarios *)

Definition row0 : ChRowVector6 := mkRow6 zero zero zero zero zero zero.

(** The object as the constructors of the base class and of the members
    leave it: no body bound, every number zero. *)
Definition link_base (active : bool) : ChLinkDistance :=
  mkLink None None (mkCx zero zero CONSTRAINT_LOCK row0 row0 None None)
         VNULL VNULL zero zero BILATERAL zero zero VNULL VNULL zero active.

Definition body_at (px py pz : Z) (vars : ChVariables) : ChBodyFrame :=
  translated_body (mkChVector (of_int px) (of_int py) (of_int pz)) vars.

(** The pose of a bound body changes between two calls: the element sees
    the new frame through its pointer. *)
Definition move_bodies (b1 b2 : ChBodyFrame) (s : ChLinkDistance)
    : ChLinkDistance :=
  set_Body2 (Some b2) (set_Body1 (Some b1) s).

(** The element with the fields [Initialize] leaves, for two bound bodies
    with the anchors at their origins. *)
Definition initialized (b1 b2 : ChBodyFrame) (auto_distance : bool)
    (mdistance : double) (m : Mode) (active : bool) : option ChLinkDistance :=
  fst <$> Initialize (Some b1) (Some b2) true VNULL VNULL auto_distance
            mdistance m (ChLinkDistance_ctor (link_base active)).

(** ** Predicates and elements of the statements *)

(** The sign convention is one of the two units. *)
Definition is_unit (a : double) : Prop := a = one \/ a = minus_one.

(** Two active one-sided elements whose violation is [10.0]: a minimum
    distance of 2 with the anchors 12 apart, and a maximum distance of 12
    with the anchors 2 apart. *)
Definition link_min : ChLinkDistance :=
  mkLink (Some (body_at 0 0 0 0)) (Some (body_at 12 0 0 6))
         (mkCx zero zero CONSTRAINT_UNILATERAL row0 row0 (Some 0) (Some 6))
         VNULL VNULL two (of_int 12) UNILATERAL_MINDISTANCE one ten
         VNULL VNULL zero true.

Definition link_max : ChLinkDistance :=
  mkLink (Some (body_at 0 0 0 0)) (Some (body_at 2 0 0 6))
         (mkCx zero zero CONSTRAINT_UNILATERAL row0 row0 (Some 0) (Some 6))
         VNULL VNULL (of_int 12) two UNILATERAL_MAXDISTANCE minus_one ten
         VNULL VNULL zero true.

(** The triple (mode, sign convention, kind of the primitive) of an element
    whose mode is [m]. *)
Definition mode_triple (m : Mode) (s : ChLinkDistance) : Prop :=
  mode s = m /\
  (mode_sign s = minus_one <-> m = UNILATERAL_MAXDISTANCE) /\
  (m <> UNILATERAL_MAXDISTANCE -> mode_sign s = one) /\
  (c_mode (Cx s) = CONSTRAINT_LOCK <-> m = BILATERAL) /\
  (m <> BILATERAL -> c_mode (Cx s) = CONSTRAINT_UNILATERAL).

(** A maximum-distance link read from an archive into a body-bound element. *)
Definition archive_max : ArchivedLink :=
  mkArchived two VNULL VNULL UNILATERAL_MAXDISTANCE.

Definition link_min_archived : ChLinkDistance :=
  mkLink (Some (body_at 0 0 0 0)) (Some (body_at 12 0 0 6))
         (mkCx zero zero CONSTRAINT_UNILATERAL row0 row0 (Some 0) (Some 6))
         VNULL VNULL two (of_int 12) UNILATERAL_MAXDISTANCE minus_one ten
         VNULL VNULL zero true.

(** The separation of the anchors in the world frame, from the poses of the
    two bodies. *)
Definition separation (b1 b2 : ChBodyFrame) (p1 p2 : ChVector) : ChVector :=
  Vsub (TransformPointLocalToParent b1 p1) (TransformPointLocalToParent b2 p2).

(** The Jacobian rows [Update] writes for a direction [dir] in the world
    frame. *)
Definition row_a (ms : double) (b1 : ChBodyFrame) (p1 dir : ChVector)
    : ChRowVector6 :=
  let rot := Vneg (Vcross (TransformDirectionParentToLocal b1 dir) p1) in
  mkRow6 (ms * vx dir)%D (ms * vy dir)%D (ms * vz dir)%D
         (ms * vx rot)%D (ms * vy rot)%D (ms * vz rot)%D.

Definition row_b (ms : double) (b2 : ChBodyFrame) (p2 dir : ChVector)
    : ChRowVector6 :=
  let rot := Vcross (TransformDirectionParentToLocal b2 dir) p2 in
  mkRow6 (ms * vx (Vneg dir))%D (ms * vy (Vneg dir))%D (ms * vz (Vneg dir))%D
         (ms * vx rot)%D (ms * vy rot)%D (ms * vz rot)%D.

(** The maximum-distance element after body 2 has moved to (3,0,0). *)
Definition link_max_moved : ChLinkDistance :=
  move_bodies (body_at 0 0 0 0) (body_at 3 0 0 6)
    (set_distance two link_max).

(** The anchors as [Initialize] stores them. *)
Definition stored_anchor (b : ChBodyFrame) (pos_are_relative : bool)
    (p : ChVector) : ChVector :=
  if pos_are_relative then p else TransformPointParentToLocal b p.

(** A bilateral element on two bodies with the anchors at their origins. *)
Definition link_bi (b1 b2 : ChBodyFrame) : ChLinkDistance :=
  default (link_base true) (initialized b1 b2 false two BILATERAL true).

(** The element after an [Update] with body 2 at (2,0,0), respectively at
    (0,2,0), and both bodies brought to the origin afterwards. *)
Definition link_after_x : ChLinkDistance :=
  move_bodies (body_at 0 0 0 0) (body_at 0 0 0 6)
    (default (link_base true)
       (Update Vnorm_scaled zero false
          (link_bi (body_at 0 0 0 0) (body_at 2 0 0 6)))).

Definition link_after_y : ChLinkDistance :=
  move_bodies (body_at 0 0 0 0) (body_at 0 0 0 6)
    (default (link_base true)
       (Update Vnorm_scaled zero false
          (link_bi (body_at 0 0 0 0) (body_at 0 2 0 6)))).

(** The two Jacobian rows of an element, and the rows after an [Update]. *)
Definition rows (s : ChLinkDistance) : ChRowVector6 * ChRowVector6 :=
  (Cq_a (Cx s), Cq_b (Cx s)).

Definition rows_after (Vnorm : ChVector -> ChVector) (s : ChLinkDistance)
    : option (ChRowVector6 * ChRowVector6) :=
  rows <$> Update Vnorm zero false s.

Definition finite_vector (p : ChVector) : Prop :=
  is_finite (vx p) = true /\ is_finite (vy p) = true /\
  is_finite (vz p) = true.

(** The element is taken out of the simulation ([ChLink::SetDisabled]). *)
Definition set_link_active (v : bool) (s : ChLinkDistance) :=
  mkLink (Body1 s) (Body2 s) (Cx s) (pos1 s) (pos2 s) (distance s) (curr_dist s)
         (mode s) (mode_sign s) (C s) (react_force s) (react_torque s)
         (ChTime s) v.

(** [link_min] after a bias load and a solver pass that left the multiplier
    [2.0], then disabled. *)
Definition link_disabled : ChLinkDistance :=
  let s := ConstraintsBiLoad_C one half true link_min in
  set_link_active false (set_Cx (Cx_ops.Set_l_i two (Cx s)) s).

(** ** The rest of ChLinkDistance.cpp *)

(** [a <= b] on doubles; false on a NaN. *)
Definition dle (a b : double) : bool := SFleb a b.

(** [ChLinkDistance::ArchiveOut], as the member values written, in the
    order written (the version tag and the parent class come before). *)
Definition ArchiveOut (this : ChLinkDistance) : ArchivedLink :=
  mkArchived (distance this) (pos1 this) (pos2 this) (mode this).

(** What the solver and the post-processing read from an element after an
    update: the current distance, the violation and the two Jacobian rows. *)
Definition observables (s : ChLinkDistance)
    : double * double * (ChRowVector6 * ChRowVector6) :=
  (curr_dist s, C s, rows s).

(** ** ChVisualShapeBarrel *)

Module Barrel.

(** Modelled from the spec: the serialization framework ([ChArchiveOut],
    [ChArchiveIn], [CHNVP]; absent from the sources) persists named values:
    an archive is the sequence of name-value pairs written; [<<] appends a
    pair and [>>] takes the next pair, which must carry the requested
    name. *)
Abbreviation ChArchive := (list (String.string * double)).

Definition write_nvp (name : String.string) (v : double) (ar : ChArchive)
    : ChArchive := ar ++ [(name, v)].

Definition read_nvp (name : String.string) (ar : ChArchive)
    : option (double * ChArchive) :=
  match ar with
  | (n, v) :: rest => if String.eqb n name then Some (v, rest) else None
  | [] => None
  end.

(** The members of [ChVisualShapeBarrel]; [is_mutable] is the flag of the base
    class that [SetMutable] sets. *)
Record ChVisualShapeBarrel : Type := mkBarrel {
  Hlow : double;
  Hsup : double;
  Rvert : double;
  Rhor : double;
  Roffset : double;
  is_mutable : bool
}.

Definition SetMutable (b : bool) (this : ChVisualShapeBarrel) :=
  mkBarrel (Hlow this) (Hsup this) (Rvert this) (Rhor this) (Roffset this) b.

(** [ChVisualShapeBarrel::ChVisualShapeBarrel()], on the object as the member
    initializers leave it. *)
Definition ctor (this : ChVisualShapeBarrel) : ChVisualShapeBarrel :=
  SetMutable false this.

(** [ChVisualShapeBarrel::ChVisualShapeBarrel(Y_low, Y_high, axis_vert,
    axis_hor, R_offset)] *)
Definition ctor_axes (Y_low Y_high axis_vert axis_hor R_offset : double)
    (this : ChVisualShapeBarrel) : ChVisualShapeBarrel :=
  SetMutable false
    (mkBarrel Y_low Y_high (axis_vert / of_int 2)%D (axis_hor / of_int 2)%D
       R_offset (is_mutable this)).

Section Archive.

(** The version tag and the parent class [ChVisualShape]: what they write,
    and how they read it back. *)
Variable ChVisualShape_ArchiveOut : ChVisualShapeBarrel -> ChArchive.
Variable ChVisualShape_ArchiveIn :
  ChArchive -> ChVisualShapeBarrel -> option (ChVisualShapeBarrel * ChArchive).

(** [ChVisualShapeBarrel::ArchiveOut] *)
Definition ArchiveOut (this : ChVisualShapeBarrel) (marchive : ChArchive)
    : ChArchive :=
  let marchive := marchive ++ ChVisualShape_ArchiveOut this in
  let marchive := write_nvp "Hlow"%string (Hlow this) marchive in
  let marchive := write_nvp "Hsup"%string (Hsup this) marchive in
  let marchive := write_nvp "Rvert"%string (Rvert this) marchive in
  let marchive := write_nvp "Rhor"%string (Rhor this) marchive in
  write_nvp "Roffset"%string (Roffset this) marchive.

(** [ChVisualShapeBarrel::ArchiveIn]: the element and the rest of the
    archive. *)
Definition ArchiveIn (marchive : ChArchive) (this : ChVisualShapeBarrel)
    : option (ChVisualShapeBarrel * ChArchive) :=
  '(this, marchive) ← ChVisualShape_ArchiveIn marchive this;
  '(v, marchive) ← read_nvp "Hlow"%string marchive;
  let this := mkBarrel v (Hsup this) (Rvert this) (Rhor this) (Roffset this)
                (is_mutable this) in
  '(v, marchive) ← read_nvp "Hsup"%string marchive;
  let this := mkBarrel (Hlow this) v (Rvert this) (Rhor this) (Roffset this)
                (is_mutable this) in
  '(v, marchive) ← read_nvp "Rvert"%string marchive;
  let this := mkBarrel (Hlow this) (Hsup this) v (Rhor this) (Roffset this)
                (is_mutable this) in
  '(v, marchive) ← read_nvp "Rhor"%string marchive;
  let this := mkBarrel (Hlow this) (Hsup this) (Rvert this) v (Roffset this)
                (is_mutable this) in
  '(v, marchive) ← read_nvp "Roffset"%string marchive;
  let this := mkBarrel (Hlow this) (Hsup this) (Rvert this) (Rhor this) v
                (is_mutable this) in
  Some (this, marchive).

End Archive.

(** A barrel from the axes 4 and 2, and a parent class that persists
    nothing. *)
Definition barrel0 : ChVisualShapeBarrel :=
  mkBarrel zero zero zero zero zero true.

Definition barrel_4_2 : ChVisualShapeBarrel :=
  ctor_axes minus_one one (of_int 4) two half barrel0.

Definition no_parent_out (b : ChVisualShapeBarrel) : ChArchive := [].

Definition no_parent_in (ar : ChArchive) (b : ChVisualShapeBarrel)
    : option (ChVisualShapeBarrel * ChArchive) := Some (b, ar).

End Barrel.

(** ** GetDiceShapeData *)

Module Dice.

(** C++ [float] is IEEE-754 binary32: precision 24, [emax] 128. *)
Definition float : Type := spec_float.

Definition fadd : float -> float -> float := SFadd 24 128.
Definition fsub : float -> float -> float := SFsub 24 128.
Definition fmul : float -> float -> float := SFmul 24 128.
Definition fdiv : float -> float -> float := SFdiv 24 128.
Definition fsqrt : float -> float := SFsqrt 24 128.
Definition fneg : float -> float := SFopp.
Definition flt (a b : float) : bool := SFltb a b.
Definition fle (a b : float) : bool := SFleb a b.
Definition feq (a b : float) : bool := SFeqb a b.

(** An [int] literal converted to [float]. *)
Definition of_int (n : Z) : float := binary_normalize 24 128 n 0 false.

(** A [double] converted to [float]. *)
Definition of_double (d : double) : float :=
  match d with
  | S754_finite s m e => binary_round 24 128 s m e
  | _ => d
  end.

(** The [double] literal with the decimal digits [n] and [k] places after
    the point ([25] and [2] for [0.25]), and the [float] literal ([1.1f]). *)
Definition lit (n : Z) (k : Z) : double :=
  (Double.of_int n / Double.of_int (10 ^ k))%D.
Definition litf (n : Z) (k : Z) : float := fdiv (of_int n) (of_int (10 ^ k)).

Record vec3 : Type := mkvec3 { x3 : float; y3 : float; z3 : float }.
Record vec2 : Type := mkvec2 { x2 : float; y2 : float }.

(** What the function stores through its five reference parameters. *)
Record DiceShapeData : Type := mkDice {
  vertices : list vec3;
  normals : list vec3;
  texcoords : list vec2;
  indices : list Z;
  boundingSphereRadius : float
}.

(** A vertex of floats, a normal of [int] literals and a texture coordinate
    of [double] literals. *)
Definition V (x y z : float) : vec3 := mkvec3 x y z.
Definition N (x y z : Z) : vec3 := mkvec3 (of_int x) (of_int y) (of_int z).
Definition T (x y : double) : vec2 := mkvec2 (of_double x) (of_double y).

(** [GetDiceShapeData] *)
Definition GetDiceShapeData : DiceShapeData :=
  let a : float := of_double (lit 10 1) in
  let na : float := fneg a in
  let t0 := Double.of_int 0 in
  let t000 := lit 0 1 in
  let t025 := lit 25 2 in
  let t05 := lit 5 1 in
  let t075 := lit 75 2 in
  let t10 := lit 10 1 in
  let t03333 := lit 3333 4 in
  let t06666 := lit 6666 4 in
  {| vertices :=
       [V na na na; V a na na; V a na a; V na na a; V a a na; V na a na;
        V na a a; V a a a; V na a na; V na na na; V na na a; V na a a;
        V a na na; V a a na; V a a a; V a na a; V a na na; V na na na;
        V na a na; V a a na; V na na a; V a na a; V a a a; V na a a];
     normals :=
       [N 0 (-1) 0; N 0 (-1) 0; N 0 (-1) 0; N 0 (-1) 0; N 0 1 0; N 0 1 0;
        N 0 1 0; N 0 1 0; N (-1) 0 0; N (-1) 0 0; N (-1) 0 0; N (-1) 0 0;
        N 1 0 0; N 1 0 0; N 1 0 0; N 1 0 0; N 0 0 (-1); N 0 0 (-1);
        N 0 0 (-1); N 0 0 (-1); N 0 0 1; N 0 0 1; N 0 0 1; N 0 0 1];
     texcoords :=
       [T t025 t0; T t05 t0; T t05 t03333; T t025 t03333; T t025 t06666;
        T t05 t06666; T t05 t10; T t025 t10; T t000 t03333; T t025 t03333;
        T t025 t06666; T t000 t06666; T t05 t03333; T t075 t03333;
        T t075 t06666;
        T t05 t06666; T t025 t03333; T t05 t03333; T t05 t06666;
        T t025 t06666;
        T t075 t03333; T t10 t03333; T t10 t06666; T t075 t06666];
     indices :=
       [0; 1; 2; 0; 2; 3; 4; 5; 6; 4; 6; 7; 8; 9; 10; 8; 10; 11;
        12; 13; 14; 12; 14; 15; 16; 17; 18; 16; 18; 19; 20; 21; 22; 20; 22;
        23]%Z;
     boundingSphereRadius := fmul (litf 11 1) (fsqrt (of_double (lit 30 1)))
  |}.

(** The other reading of [1.1f*sqrt(3.0f)]: the [double] overload of [sqrt],
    the product in [double], and the conversion to [float] on the store. *)
Definition boundingSphereRadius_double_sqrt : float :=
  of_double (litf 11 1 * Double.sqrt (of_double (lit 30 1)))%D.

(** Vector operations on the mesh data. *)
Definition sub3 (p q : vec3) : vec3 :=
  mkvec3 (fsub (x3 p) (x3 q)) (fsub (y3 p) (y3 q)) (fsub (z3 p) (z3 q)).
Definition cross3 (p q : vec3) : vec3 :=
  mkvec3 (fsub (fmul (y3 p) (z3 q)) (fmul (z3 p) (y3 q)))
         (fsub (fmul (z3 p) (x3 q)) (fmul (x3 p) (z3 q)))
         (fsub (fmul (x3 p) (y3 q)) (fmul (y3 p) (x3 q))).
Definition dot3 (p q : vec3) : float :=
  fadd (fadd (fmul (x3 p) (x3 q)) (fmul (y3 p) (y3 q))) (fmul (z3 p) (z3 q)).
Definition scale3 (k : float) (p : vec3) : vec3 :=
  mkvec3 (fmul k (x3 p)) (fmul k (y3 p)) (fmul k (z3 p)).
Definition norm3 (p : vec3) : float := fsqrt (dot3 p p).

(** Numerical equality of two vectors ([-0.0] equals [0.0]). *)
Definition eq3 (p q : vec3) : bool :=
  feq (x3 p) (x3 q) && feq (y3 p) (y3 q) && feq (z3 p) (z3 q).

(** The [k]-th triangle: three consecutive indices. *)
Definition triangle (d : DiceShapeData) (k : nat) : option (Z * Z * Z) :=
  i0 ← indices d !! (3 * k)%nat;
  i1 ← indices d !! (3 * k + 1)%nat;
  i2 ← indices d !! (3 * k + 2)%nat;
  Some (i0, i1, i2).

Definition vertex (d : DiceShapeData) (i : Z) : option vec3 :=
  if (0 <=? i)%Z then vertices d !! Z.to_nat i else None.
Definition normal (d : DiceShapeData) (i : Z) : option vec3 :=
  if (0 <=? i)%Z then normals d !! Z.to_nat i else None.

(** A triangle is well formed: its three indices address vertices, the three
    vertices carry the same normal [n], lie in the plane [n . p = 1], and are
    wound counter-clockwise seen from outside: the cross product of its two
    edges from the first vertex is [4 n]. *)
Definition triangle_ok (d : DiceShapeData) (k : nat) : bool :=
  match triangle d k with
  | Some (i0, i1, i2) =>
      match vertex d i0, vertex d i1, vertex d i2,
            normal d i0, normal d i1, normal d i2 with
      | Some p0, Some p1, Some p2, Some n0, Some n1, Some n2 =>
          eq3 n0 n1 && eq3 n0 n2 &&
          feq (dot3 n0 p0) (of_int 1) && feq (dot3 n0 p1) (of_int 1) &&
          feq (dot3 n0 p2) (of_int 1) &&
          eq3 (cross3 (sub3 p1 p0) (sub3 p2 p0)) (scale3 (of_int 4) n0)
      | _, _, _, _, _, _ => false
      end
  | None => false
  end.

End Dice.

(** Runs [Update] on an element given field by field. *)
Ltac run_Update :=
  cbv [Update ChLink_Update set_ChTime set_curr_dist set_Cx set_C Body1 Body2
       mbind option_bind pos1 pos2 mode_sign distance curr_dist Cx C mode
       react_force react_torque ChTime link_active Cx_ops.Set_Cq_a
       Cx_ops.Set_Cq_b l_i b_i c_mode Cq_a Cq_b variables_a variables_b].

(** ** Binary64 facts *)

Section Rounding_facts.

Variables p e : Z.

Lemma shr_1_nonneg (r : shr_record) :
  (0 <= shr_m r)%Z -> (0 <= shr_m (shr_1 r))%Z.
Proof.
  destruct r as [m r s]; simpl.
  destruct m as [|[q|q|]|[q|q|]]; simpl; lia.
Qed.

Lemma iter_shr_1_nonneg (n : positive) :
  forall r, (0 <= shr_m r)%Z -> (0 <= shr_m (SpecFloat.iter_pos shr_1 n r))%Z.
Proof.
  induction n as [n IH|n IH|]; intros r Hr; simpl.
  - apply IH, IH, shr_1_nonneg, Hr.
  - apply IH, IH, Hr.
  - apply shr_1_nonneg, Hr.
Qed.

Lemma shr_fexp_nonneg (m ex : Z) (l : location) :
  (0 <= m)%Z -> (0 <= shr_m (fst (shr_fexp p e m ex l)))%Z.
Proof.
  intros Hm. unfold shr_fexp, shr.
  assert (H0 : (0 <= shr_m (shr_record_of_loc m l))%Z)
    by (destruct l as [|[]]; exact Hm).
  destruct (fexp p e (Zdigits2 m + ex) - ex)%Z; simpl; try exact H0.
  apply iter_shr_1_nonneg, H0.
Qed.

Lemma round_nearest_even_nonneg (m : Z) (l : location) :
  (0 <= m)%Z -> (0 <= round_nearest_even m l)%Z.
Proof.
  intros Hm. destruct l as [|[]]; simpl; try lia.
  destruct (Z.even m); lia.
Qed.

Lemma binary_round_aux_not_nan (sx : bool) (mx ex : Z) (lx : location) :
  (0 <= mx)%Z -> binary_round_aux p e sx mx ex lx <> S754_nan.
Proof.
  intros Hm. unfold binary_round_aux.
  pose proof (shr_fexp_nonneg mx ex lx Hm) as H1.
  destruct (shr_fexp p e mx ex lx) as [mrs' e']; simpl in H1.
  pose proof (shr_fexp_nonneg
                (round_nearest_even (shr_m mrs') (loc_of_shr_record mrs'))
                e' loc_Exact (round_nearest_even_nonneg _ _ H1)) as H2.
  destruct (shr_fexp p e _ e' loc_Exact) as [mrs'' e'']; simpl in H2.
  destruct (shr_m mrs'') as [|q|q]; try lia; try discriminate.
  destruct (e'' <=? e - p)%Z; discriminate.
Qed.

End Rounding_facts.

(** A product with a non-NaN, non-zero finite factor such as [1.0] or [-1.0]
    is a NaN exactly when the other factor is. *)
Lemma mul_finite_is_nan (s : bool) (m : positive) (e : Z) (a : double) :
  is_nan (S754_finite s m e * a)%D = is_nan a.
Proof.
  destruct a as [sa|sa| |sa ma ea]; try reflexivity.
  unfold mul, SFmul.
  destruct (binary_round_aux prec emax (xorb s sa) (Z.pos (m * ma)) (e + ea)
              loc_Exact) eqn:E; try reflexivity.
  exfalso. revert E. apply binary_round_aux_not_nan. lia.
Qed.

Lemma mul_one_is_nan (a : double) : is_nan (one * a)%D = is_nan a.
Proof. apply mul_finite_is_nan. Qed.

Lemma mul_minus_one_is_nan (a : double) : is_nan (minus_one * a)%D = is_nan a.
Proof. apply mul_finite_is_nan. Qed.

Lemma neg_is_nan (a : double) : is_nan (- a)%D = is_nan a.
Proof. destruct a; reflexivity. Qed.

Lemma neg_involutive (a : double) : (- - a)%D = a.
Proof. destruct a as [[]|[]| |[] m e]; reflexivity. Qed.

(** [a - a] is [+0.0] for every finite [a]. *)
Lemma sub_diag_finite (a : double) : is_finite a = true -> (a - a)%D = zero.
Proof.
  destruct a as [[]|?| |s m e]; try discriminate; intros _; try reflexivity.
  unfold sub, SFsub. rewrite Z.sub_diag. reflexivity.
Qed.

Lemma sub_zero_l_is_nan (a : double) : is_nan (zero - a)%D = is_nan a.
Proof. destruct a as [[]|[]| |[] m e]; reflexivity. Qed.

Lemma mul_unit_is_nan (u a : double) :
  is_unit u -> is_nan (u * a)%D = is_nan a.
Proof. intros [-> | ->]; [apply mul_one_is_nan | apply mul_minus_one_is_nan]. Qed.

(** Both are what [Initialize] returns on a freshly constructed element. *)
Lemma link_min_initialized :
  initialized (body_at 0 0 0 0) (body_at 12 0 0 6) false two
    UNILATERAL_MINDISTANCE true = Some link_min.
Proof. reflexivity. Qed.

Lemma link_max_initialized :
  initialized (body_at 0 0 0 0) (body_at 2 0 0 6) false (of_int 12)
    UNILATERAL_MAXDISTANCE true = Some link_max.
Proof. reflexivity. Qed.

(** ** The mode and what is derived from it (SetMode) *)

Lemma SetMode_mode_triple (m : Mode) (s : ChLinkDistance) :
  mode_triple m (SetMode m s).
Proof.
  unfold mode_triple; destruct m; simpl;
    repeat split; intros; try congruence; try discriminate.
Qed.

(** The triple only reads [mode], [mode_sign] and the primitive's kind. *)
Lemma mode_triple_ext (m : Mode) (s t : ChLinkDistance) :
  mode t = mode s -> mode_sign t = mode_sign s ->
  c_mode (Cx t) = c_mode (Cx s) ->
  mode_triple m s -> mode_triple m t.
Proof. unfold mode_triple. intros -> -> ->. exact id. Qed.

Lemma mode_triple_is_unit (m : Mode) (s : ChLinkDistance) :
  mode_triple m s -> is_unit (mode_sign s).
Proof.
  intros (_ & H1 & H2 & _). unfold is_unit.
  destruct m; try (left; apply H2; discriminate).
  right. apply H1. reflexivity.
Qed.

(** What [Initialize] returns for two bound bodies, field by field. *)
Lemma Initialize_bound (b1 b2 : ChBodyFrame) (rel : bool) (p1 p2 : ChVector)
    (auto : bool) (d : double) (m : Mode) (this : ChLinkDistance) :
  exists s' : ChLinkDistance,
    Initialize (Some b1) (Some b2) rel p1 p2 auto d m this = Some (s', 1%Z) /\
    Body1 s' = Some b1 /\ Body2 s' = Some b2 /\
    mode s' = m /\ mode_sign s' = mode_sign (SetMode m this) /\
    c_mode (Cx s') = c_mode (Cx (SetMode m this)) /\
    pos1 s' = (if rel then p1 else TransformPointParentToLocal b1 p1) /\
    pos2 s' = (if rel then p2 else TransformPointParentToLocal b2 p2) /\
    curr_dist s' =
      Length (Vsub (TransformPointLocalToParent b1 (pos1 s'))
                   (TransformPointLocalToParent b2 (pos2 s'))) /\
    distance s' = (if auto then curr_dist s' else d) /\
    C s' = (mode_sign s' * (curr_dist s' - distance s'))%D /\
    link_active s' = link_active this.
Proof.
  eexists. split; [reflexivity|].
  destruct rel, auto; simpl; repeat split; reflexivity.
Qed.

(** C7. Immediately after [SetMode m] the mode is [m], the sign convention is
    [-1.0] exactly for the maximum-distance mode and [+1.0] otherwise, and
    the primitive is locked exactly for the bilateral mode and unilateral
    otherwise; the same holds after each path that sets the mode: the
    constructor (bilateral), the copy constructor, [Initialize] and
    [ArchiveIn], whenever they are defined. *)
Theorem SetMode_consistent (m : Mode) (this : ChLinkDistance) :
  mode_triple m (SetMode m this) /\
  mode_triple BILATERAL (ChLinkDistance_ctor this) /\
  (forall b1 b2 rel p1 p2 auto d, exists s',
      Initialize (Some b1) (Some b2) rel p1 p2 auto d m this = Some (s', 1%Z)
      /\ mode_triple m s') /\
  (forall other s',
      ChLinkDistance_copy other this = Some s' ->
      mode_triple (mode other) s') /\
  (forall ChLink_ArchiveIn marchive s',
      ArchiveIn ChLink_ArchiveIn marchive this = Some s' ->
      mode_triple (ar_mode marchive) s').
Proof.
  split; [apply SetMode_mode_triple|].
  split; [apply SetMode_mode_triple|].
  split; [|split].
  - intros b1 b2 rel p1 p2 auto d.
    destruct (Initialize_bound b1 b2 rel p1 p2 auto d m this)
      as (s' & Hret & _ & _ & Hm & Hs & Hc & _).
    exists s'. split; [exact Hret|].
    apply (mode_triple_ext m (SetMode m this));
      [exact Hm | exact Hs | exact Hc | apply SetMode_mode_triple].
  - intros other s'. unfold ChLinkDistance_copy.
    destruct (Body1 other) as [b1|]; [|discriminate].
    destruct (Body2 other) as [b2|]; [|discriminate].
    simpl. intros [= <-].
    apply (mode_triple_ext _ (SetMode (mode other) this));
      try reflexivity.
    apply SetMode_mode_triple.
  - intros parent marchive s'. unfold ArchiveIn. simpl.
    destruct (Body1 (parent this)) as [b1|]; [|discriminate].
    destruct (Body2 (parent this)) as [b2|]; [|discriminate].
    simpl. intros [= <-]. apply SetMode_mode_triple.
Qed.

Lemma link_min_ArchiveIn :
  ArchiveIn (fun s => s) archive_max link_min = Some link_min_archived.
Proof. reflexivity. Qed.

Lemma SetMode_consistent_witness :
  ArchiveIn (fun s => s) archive_max link_min = Some link_min_archived /\
  mode_triple UNILATERAL_MAXDISTANCE link_min_archived.
Proof.
  split; [exact link_min_ArchiveIn|].
  exact (proj2 (proj2 (proj2 (proj2
           (SetMode_consistent UNILATERAL_MAXDISTANCE link_min))))
           (fun s => s) archive_max link_min_archived link_min_ArchiveIn).
Defined.

(** ** The clamp of the violation residual (IntLoadConstraint_C) *)

(** At [link_min] and [link_max] the scaled violation is [1.0 * 10.0]. *)
Lemma scaled_violation_ten :
  (one * C link_min)%D = ten /\ (one * C link_max)%D = ten.
Proof. split; vm_compute; reflexivity. Qed.

(** C1, as stated, fails: for an active one-sided element with recovery
    limit [0.5] and scaled violation [10.0], [IntLoadConstraint_C] adds
    [10.0] to the slot, not [0.5], in the minimum-distance and in the
    maximum-distance mode. *)
Lemma IntLoadConstraint_C_one_sided_adds_ten :
  IsActive link_min = true /\ mode link_min = UNILATERAL_MINDISTANCE /\
  IsActive link_max = true /\ mode link_max = UNILATERAL_MAXDISTANCE /\
  (one * C link_min)%D = ten /\ (one * C link_max)%D = ten /\
  IntLoadConstraint_C 0 [zero] one true half link_min = Some [ten] /\
  IntLoadConstraint_C 0 [zero] one true half link_max = Some [ten] /\
  (zero + ten)%D = ten /\ (zero + half)%D = half /\ ten <> half.
Proof.
  repeat split; try reflexivity; try (vm_compute; reflexivity).
  discriminate.
Qed.

(** C1, amended. For an active element in a one-sided mode,
    [IntLoadConstraint_C] with clamping adds to the slot the scaled violation
    clamped from below only, at [-recovery_clamp]: the scaled violation
    itself when it is greater than [-recovery_clamp], whatever its size, and
    [-recovery_clamp] otherwise. *)
Theorem IntLoadConstraint_C_one_sided (off_L : nat) (Qc : ChVectorDynamic)
    (c recovery_clamp q : double) (this : ChLinkDistance) :
  IsActive this = true ->
  mode this <> BILATERAL ->
  Qc !! off_L = Some q ->
  IntLoadConstraint_C off_L Qc c true recovery_clamp this =
    Some (<[off_L :=
              (q + (if gt (c * C this) (- recovery_clamp)
                    then c * C this else - recovery_clamp))%D]> Qc).
Proof.
  intros Hact Hmode Hq. unfold IntLoadConstraint_C.
  rewrite Hact. simpl.
  destruct (mode this); [congruence| |];
    simpl; unfold add_at; rewrite Hq; reflexivity.
Qed.

Lemma IntLoadConstraint_C_one_sided_witness :
  IsActive link_min = true /\
  mode link_min <> BILATERAL /\
  [zero; zero] !! 1 = Some zero /\
  IntLoadConstraint_C 1 [zero; zero] one true half link_min =
    Some (<[1 := (zero + (if gt (one * C link_min) (- half)
                          then one * C link_min else - half))%D]>
            [zero; zero]).
Proof.
  split; [reflexivity|]. split; [discriminate|]. split; [reflexivity|].
  apply (IntLoadConstraint_C_one_sided 1 [zero; zero] one half zero link_min);
    [reflexivity | discriminate | reflexivity].
Defined.

(** In the bilateral mode the clamp is symmetric. *)
Lemma IntLoadConstraint_C_bilateral (off_L : nat) (Qc : ChVectorDynamic)
    (c recovery_clamp q : double) (this : ChLinkDistance) :
  IsActive this = true ->
  mode this = BILATERAL ->
  Qc !! off_L = Some q ->
  IntLoadConstraint_C off_L Qc c true recovery_clamp this =
    Some (<[off_L :=
              (q + ChMin (ChMax (c * C this) (- recovery_clamp))
                         recovery_clamp)%D]> Qc).
Proof.
  intros Hact Hmode Hq. unfold IntLoadConstraint_C.
  rewrite Hact, Hmode. simpl. unfold add_at. rewrite Hq. reflexivity.
Qed.

(** ** The clamp of the bias (ConstraintsBiLoad_C) *)

(** [ConstraintsBiLoad_C] clamps symmetrically in every mode. *)
Lemma ConstraintsBiLoad_C_active (factor recovery_clamp : double)
    (this : ChLinkDistance) :
  IsActive this = true ->
  b_i (Cx (ConstraintsBiLoad_C factor recovery_clamp true this)) =
    (b_i (Cx this) +
     ChMin (ChMax (factor * C this) (- recovery_clamp)) recovery_clamp)%D.
Proof.
  intros Hact. unfold ConstraintsBiLoad_C. rewrite Hact. reflexivity.
Qed.

(** C2, the code at the failing input. On the active minimum-distance
    element with violation [10.0], factor [1.0] and limit [0.5],
    [ConstraintsBiLoad_C] adds [0.5] to the bias while [IntLoadConstraint_C]
    adds [10.0] to the residual: the two do not clamp by the same policy. *)
Lemma ConstraintsBiLoad_C_differs_from_IntLoadConstraint_C :
  mode link_min = UNILATERAL_MINDISTANCE /\
  b_i (Cx link_min) = zero /\
  b_i (Cx (ConstraintsBiLoad_C one half true link_min)) = half /\
  IntLoadConstraint_C 0 [b_i (Cx link_min)] one true half link_min =
    Some [ten].
Proof. repeat split; vm_compute; reflexivity. Qed.

(** ** Initialize and Update *)

(** What [Update] returns for two bound bodies, field by field. *)
Lemma Update_bound (Vnorm : ChVector -> ChVector) (mytime : double)
    (update_assets : bool) (this : ChLinkDistance) (b1 b2 : ChBodyFrame) :
  Body1 this = Some b1 -> Body2 this = Some b2 ->
  exists s' : ChLinkDistance,
    Update Vnorm mytime update_assets this = Some s' /\
    curr_dist s' = Length (separation b1 b2 (pos1 this) (pos2 this)) /\
    C s' = (mode_sign s' * (curr_dist s' - distance s'))%D /\
    Cq_a (Cx s') =
      row_a (mode_sign this) b1 (pos1 this)
            (Vnorm (separation b1 b2 (pos1 this) (pos2 this))) /\
    Cq_b (Cx s') =
      row_b (mode_sign this) b2 (pos2 this)
            (Vnorm (separation b1 b2 (pos1 this) (pos2 this))) /\
    mode_sign s' = mode_sign this /\ distance s' = distance this /\
    mode s' = mode this /\ pos1 s' = pos1 this /\ pos2 s' = pos2 this /\
    Body1 s' = Some b1 /\ Body2 s' = Some b2.
Proof.
  intros H1 H2. unfold Update. simpl. rewrite H1, H2. simpl.
  eexists. split; [reflexivity|].
  simpl. rewrite ?H1, ?H2. repeat split; reflexivity.
Qed.

(** C6. After [Update], and after [Initialize], the stored violation is the
    sign convention times (current distance minus target distance), and the
    current distance is the Euclidean norm of the world-frame separation of
    the two anchors under the current poses of the bodies. *)
Theorem violation_after_Update (Vnorm : ChVector -> ChVector)
    (mytime : double) (update_assets : bool) (this : ChLinkDistance)
    (b1 b2 : ChBodyFrame) :
  Body1 this = Some b1 -> Body2 this = Some b2 ->
  (exists s' : ChLinkDistance,
     Update Vnorm mytime update_assets this = Some s' /\
     curr_dist s' = Length (separation b1 b2 (pos1 s') (pos2 s')) /\
     C s' = (mode_sign s' * (curr_dist s' - distance s'))%D) /\
  (forall b1' b2' rel p1 p2 auto d m, exists s' : ChLinkDistance,
     Initialize (Some b1') (Some b2') rel p1 p2 auto d m this = Some (s', 1%Z) /\
     curr_dist s' = Length (separation b1' b2' (pos1 s') (pos2 s')) /\
     C s' = (mode_sign s' * (curr_dist s' - distance s'))%D).
Proof.
  intros H1 H2. split.
  - destruct (Update_bound Vnorm mytime update_assets this b1 b2 H1 H2)
      as (s' & Hret & Hcur & HC & _ & _ & _ & _ & _ & Hp1 & Hp2 & _).
    exists s'. split; [exact Hret|]. split; [|exact HC].
    rewrite Hp1, Hp2. exact Hcur.
  - intros b1' b2' rel p1 p2 auto d m.
    destruct (Initialize_bound b1' b2' rel p1 p2 auto d m this)
      as (s' & Hret & _ & _ & _ & _ & _ & _ & _ & Hcur & _ & HC & _).
    exists s'. split; [exact Hret|]. split; [exact Hcur | exact HC].
Qed.

Lemma violation_after_Update_witness :
  Body1 link_max_moved = Some (body_at 0 0 0 0) /\
  Body2 link_max_moved = Some (body_at 3 0 0 6) /\
  exists s' : ChLinkDistance,
    Update Vnorm_scaled zero false link_max_moved = Some s' /\
    curr_dist s' = three /\ C s' = minus_one.
Proof.
  split; [reflexivity|]. split; [reflexivity|].
  destruct (violation_after_Update Vnorm_scaled zero false link_max_moved
              (body_at 0 0 0 0) (body_at 3 0 0 6) eq_refl eq_refl)
    as [(s' & Hret & Hcur & HC) _].
  exists s'. split; [exact Hret|].
  destruct (Update_bound Vnorm_scaled zero false link_max_moved
              (body_at 0 0 0 0) (body_at 3 0 0 6) eq_refl eq_refl)
    as (t & Hret' & Hcur' & _ & _ & _ & Hms & Hd & _).
  rewrite Hret in Hret'. injection Hret' as <-.
  assert (Hthree : curr_dist s' = three)
    by (rewrite Hcur'; vm_compute; reflexivity).
  split; [exact Hthree|].
  rewrite HC, Hthree, Hms, Hd. vm_compute. reflexivity.
Defined.

(** [+1.0 * 0.0] is [+0.0] and [-1.0 * 0.0] is [-0.0]. *)
Lemma mode_sign_times_zero (m : Mode) (this : ChLinkDistance) :
  (mode_sign (SetMode m this) * zero)%D =
    (if Mode_eqb m UNILATERAL_MAXDISTANCE then - zero else zero)%D.
Proof. destruct m; reflexivity. Qed.

(** C9. With [auto_distance] true, two bound bodies and a finite measured
    separation, [Initialize] sets the target distance to the measured
    world-frame separation of the anchors, and the violation is zero:
    [+0.0], or [-0.0] in the maximum-distance mode. *)
Theorem Initialize_auto_distance (b1 b2 : ChBodyFrame) (rel : bool)
    (p1 p2 : ChVector) (d : double) (m : Mode) (this : ChLinkDistance) :
  is_finite (Length (separation b1 b2 (stored_anchor b1 rel p1)
                                      (stored_anchor b2 rel p2))) = true ->
  exists s' : ChLinkDistance,
    Initialize (Some b1) (Some b2) rel p1 p2 true d m this = Some (s', 1%Z) /\
    distance s' = Length (separation b1 b2 (pos1 s') (pos2 s')) /\
    pos1 s' = stored_anchor b1 rel p1 /\ pos2 s' = stored_anchor b2 rel p2 /\
    is_zero (C s') = true /\
    C s' = (if Mode_eqb m UNILATERAL_MAXDISTANCE then - zero else zero)%D.
Proof.
  intros Hfin.
  destruct (Initialize_bound b1 b2 rel p1 p2 true d m this)
    as (s' & Hret & _ & _ & _ & Hms & _ & Hp1 & Hp2 & Hcur & Hd & HC & _).
  exists s'. split; [exact Hret|].
  fold (stored_anchor b1 rel p1) in Hp1. fold (stored_anchor b2 rel p2) in Hp2.
  fold (separation b1 b2 (pos1 s') (pos2 s')) in Hcur.
  simpl in Hd.
  assert (HC' : C s' =
            (if Mode_eqb m UNILATERAL_MAXDISTANCE then - zero else zero)%D).
  { rewrite HC, Hd, Hms, sub_diag_finite.
    - apply mode_sign_times_zero.
    - rewrite Hcur, Hp1, Hp2. exact Hfin. }
  split; [rewrite Hd; exact Hcur|].
  split; [exact Hp1|]. split; [exact Hp2|].
  split; [|exact HC'].
  rewrite HC'. destruct m; reflexivity.
Qed.

(** The scenario of the specification: bodies at (0,0,0) and (2,0,0), the
    anchors at the origin of each body, bilateral mode. *)
Lemma Initialize_auto_distance_witness :
  is_finite (Length (separation (body_at 0 0 0 0) (body_at 2 0 0 6)
                       (stored_anchor (body_at 0 0 0 0) true VNULL)
                       (stored_anchor (body_at 2 0 0 6) true VNULL))) = true /\
  exists s' : ChLinkDistance,
    Initialize (Some (body_at 0 0 0 0)) (Some (body_at 2 0 0 6)) true
      VNULL VNULL true zero BILATERAL (ChLinkDistance_ctor (link_base true))
      = Some (s', 1%Z) /\
    distance s' = two /\ C s' = zero.
Proof.
  split; [vm_compute; reflexivity|].
  destruct (Initialize_auto_distance (body_at 0 0 0 0) (body_at 2 0 0 6) true
              VNULL VNULL zero BILATERAL (ChLinkDistance_ctor (link_base true)))
    as (s' & Hret & Hd & Hp1 & Hp2 & _ & HC).
  - vm_compute; reflexivity.
  - exists s'. split; [exact Hret|]. split; [|exact HC].
    rewrite Hd, Hp1, Hp2. vm_compute. reflexivity.
Defined.

(** C4, as stated, fails: with a null body handle [Initialize] returns no
    result at all: the null pointer is dereferenced ([Body1->Variables()]),
    which is undefined behaviour, not a reported failure. *)
Lemma Initialize_null_body_undefined :
  Initialize None (Some (body_at 2 0 0 6)) true VNULL VNULL true zero
    BILATERAL (ChLinkDistance_ctor (link_base true)) = None /\
  Initialize (Some (body_at 0 0 0 0)) None true VNULL VNULL true zero
    BILATERAL (ChLinkDistance_ctor (link_base true)) = None.
Proof. split; reflexivity. Qed.

(** C4, amended. [Initialize] checks no precondition and has no failure
    result: with two non-null body handles it returns [true] (1) and leaves
    the element fully initialized: both bodies bound, the primitive bound to
    their variable blocks, the mode triple set, the anchors, the current and
    the target distance and the violation stored. *)
Theorem Initialize_returns_true (b1 b2 : ChBodyFrame) (rel : bool)
    (p1 p2 : ChVector) (auto : bool) (d : double) (m : Mode)
    (this : ChLinkDistance) :
  exists s' : ChLinkDistance,
    Initialize (Some b1) (Some b2) rel p1 p2 auto d m this = Some (s', 1%Z) /\
    Body1 s' = Some b1 /\ Body2 s' = Some b2 /\
    variables_a (Cx s') = Some (Variables b1) /\
    variables_b (Cx s') = Some (Variables b2) /\
    mode_triple m s' /\
    pos1 s' = stored_anchor b1 rel p1 /\ pos2 s' = stored_anchor b2 rel p2 /\
    curr_dist s' = Length (separation b1 b2 (pos1 s') (pos2 s')) /\
    distance s' = (if auto then curr_dist s' else d) /\
    C s' = (mode_sign s' * (curr_dist s' - distance s'))%D.
Proof.
  destruct (Initialize_bound b1 b2 rel p1 p2 auto d m this)
    as (s' & Hret & HB1 & HB2 & Hm & Hms & Hc & Hp1 & Hp2 & Hcur & Hd & HC & _).
  exists s'. split; [exact Hret|].
  assert (Hv : variables_a (Cx s') = Some (Variables b1) /\
               variables_b (Cx s') = Some (Variables b2)).
  { revert Hret. unfold Initialize. simpl. intros [= <-].
    destruct rel, auto; split; reflexivity. }
  destruct Hv as [Hva Hvb].
  repeat (split; [assumption|]).
  split; [|repeat (split; [assumption|]); assumption].
  apply (mode_triple_ext m (SetMode m this));
    [exact Hm | exact Hms | exact Hc | apply SetMode_mode_triple].
Qed.

(** ** Update at a zero separation *)

Lemma rows_link_after_x :
  rows link_after_x =
    (mkRow6 minus_one zero zero (- zero)%D (- zero)%D zero,
     mkRow6 one (- zero)%D (- zero)%D zero zero (- zero)%D).
Proof. vm_compute. reflexivity. Qed.

Lemma rows_link_after_y :
  rows link_after_y =
    (mkRow6 zero minus_one zero zero (- zero)%D (- zero)%D,
     mkRow6 (- zero)%D one (- zero)%D (- zero)%D zero zero).
Proof. vm_compute. reflexivity. Qed.

Lemma link_after_same_inputs :
  Body1 link_after_x = Some (body_at 0 0 0 0) /\
  Body2 link_after_x = Some (body_at 0 0 0 6) /\
  Body1 link_after_y = Some (body_at 0 0 0 0) /\
  Body2 link_after_y = Some (body_at 0 0 0 6) /\
  pos1 link_after_x = VNULL /\ pos2 link_after_x = VNULL /\
  pos1 link_after_y = VNULL /\ pos2 link_after_y = VNULL /\
  mode_sign link_after_x = one /\ mode_sign link_after_y = one.
Proof. repeat split; reflexivity. Qed.

Lemma rows_after_bound (Vnorm : ChVector -> ChVector) (s : ChLinkDistance)
    (b1 b2 : ChBodyFrame) :
  Body1 s = Some b1 -> Body2 s = Some b2 ->
  rows_after Vnorm s =
    Some (row_a (mode_sign s) b1 (pos1 s)
                (Vnorm (separation b1 b2 (pos1 s) (pos2 s))),
          row_b (mode_sign s) b2 (pos2 s)
                (Vnorm (separation b1 b2 (pos1 s) (pos2 s)))).
Proof.
  intros H1 H2.
  destruct (Update_bound Vnorm zero false s b1 b2 H1 H2)
    as (s' & Hret & _ & _ & Ha & Hb & _).
  unfold rows_after, rows. rewrite Hret. simpl. rewrite Ha, Hb. reflexivity.
Qed.

(** C3, as stated, fails: [Update] does not skip the Jacobian update when the
    anchors coincide.  Both elements below have the two anchors at the world
    origin, and hold different Jacobian rows from the step before; whatever
    [Vnorm] returns for the zero vector, [Update] cannot leave both rows as
    they were, because it overwrites them with the same values. *)
Lemma Update_overwrites_Jacobian :
  separation (body_at 0 0 0 0) (body_at 0 0 0 6)
    (pos1 link_after_x) (pos2 link_after_x) = VNULL /\
  separation (body_at 0 0 0 0) (body_at 0 0 0 6)
    (pos1 link_after_y) (pos2 link_after_y) = VNULL /\
  ~ (exists Vnorm : ChVector -> ChVector,
       rows_after Vnorm link_after_x = Some (rows link_after_x) /\
       rows_after Vnorm link_after_y = Some (rows link_after_y)).
Proof.
  split; [vm_compute; reflexivity|]. split; [vm_compute; reflexivity|].
  intros (Vnorm & Hx & Hy).
  destruct link_after_same_inputs
    as (X1 & X2 & Y1 & Y2 & Px1 & Px2 & Py1 & Py2 & Mx & My).
  rewrite (rows_after_bound Vnorm _ _ _ X1 X2) in Hx.
  rewrite (rows_after_bound Vnorm _ _ _ Y1 Y2) in Hy.
  rewrite Px1, Px2, Mx in Hx. rewrite Py1, Py2, My in Hy.
  rewrite rows_link_after_x in Hx. rewrite rows_link_after_y in Hy.
  rewrite Hx in Hy.
  apply (f_equal (fun o => is_zero (c0 (fst (default (row0, row0) o))))) in Hy.
  discriminate Hy.
Qed.

Lemma Vsub_diag_finite (p : ChVector) : finite_vector p -> Vsub p p = VNULL.
Proof.
  intros (Hx & Hy & Hz). unfold Vsub, VNULL.
  rewrite !sub_diag_finite by assumption. reflexivity.
Qed.

Lemma Length_VNULL : Length VNULL = zero.
Proof. vm_compute. reflexivity. Qed.

(** C3, amended. When the two anchors coincide at a finite point of the
    world frame, [Update] does not skip the Jacobian update: it stores a
    current distance of zero and the violation
    [mode_sign * (0 - distance)], which is a NaN only if the target distance
    is, and it overwrites both Jacobian rows with the rows of the direction
    that [Vnorm] returns for the zero vector.  There is no guard in [Update]:
    a translational entry of the Jacobian is a NaN exactly when the
    corresponding component of [Vnorm] of the zero vector is. *)
Theorem Update_at_zero_separation (Vnorm : ChVector -> ChVector)
    (mytime : double) (update_assets : bool) (this : ChLinkDistance)
    (b1 b2 : ChBodyFrame) (p : ChVector) :
  Body1 this = Some b1 -> Body2 this = Some b2 ->
  TransformPointLocalToParent b1 (pos1 this) = p ->
  TransformPointLocalToParent b2 (pos2 this) = p ->
  finite_vector p ->
  is_unit (mode_sign this) ->
  exists s' : ChLinkDistance,
    Update Vnorm mytime update_assets this = Some s' /\
    curr_dist s' = zero /\
    C s' = (mode_sign this * (zero - distance this))%D /\
    is_nan (C s') = is_nan (distance this) /\
    Cq_a (Cx s') = row_a (mode_sign this) b1 (pos1 this) (Vnorm VNULL) /\
    Cq_b (Cx s') = row_b (mode_sign this) b2 (pos2 this) (Vnorm VNULL) /\
    is_nan (c0 (Cq_a (Cx s'))) = is_nan (vx (Vnorm VNULL)) /\
    is_nan (c1 (Cq_a (Cx s'))) = is_nan (vy (Vnorm VNULL)) /\
    is_nan (c2 (Cq_a (Cx s'))) = is_nan (vz (Vnorm VNULL)) /\
    is_nan (c0 (Cq_b (Cx s'))) = is_nan (vx (Vnorm VNULL)) /\
    is_nan (c1 (Cq_b (Cx s'))) = is_nan (vy (Vnorm VNULL)) /\
    is_nan (c2 (Cq_b (Cx s'))) = is_nan (vz (Vnorm VNULL)).
Proof.
  intros H1 H2 Hp1 Hp2 Hfin Hunit.
  destruct (Update_bound Vnorm mytime update_assets this b1 b2 H1 H2)
    as (s' & Hret & Hcur & HC & Ha & Hb & Hms & Hd & _).
  assert (Hsep : separation b1 b2 (pos1 this) (pos2 this) = VNULL)
    by (unfold separation; rewrite Hp1, Hp2; apply Vsub_diag_finite, Hfin).
  rewrite Hsep in Hcur, Ha, Hb. rewrite Length_VNULL in Hcur.
  assert (HC' : C s' = (mode_sign this * (zero - distance this))%D)
    by (rewrite HC, Hms, Hcur, Hd; reflexivity).
  exists s'. split; [exact Hret|]. split; [exact Hcur|].
  split; [exact HC'|].
  split; [rewrite HC', (mul_unit_is_nan _ _ Hunit); apply sub_zero_l_is_nan|].
  split; [exact Ha|]. split; [exact Hb|].
  rewrite Ha, Hb. simpl.
  rewrite !(mul_unit_is_nan _ _ Hunit), !neg_is_nan. repeat split.
Qed.

Lemma Update_at_zero_separation_witness :
  Body1 link_after_x = Some (body_at 0 0 0 0) /\
  Body2 link_after_x = Some (body_at 0 0 0 6) /\
  TransformPointLocalToParent (body_at 0 0 0 0) (pos1 link_after_x) = VNULL /\
  TransformPointLocalToParent (body_at 0 0 0 6) (pos2 link_after_x) = VNULL /\
  finite_vector VNULL /\
  is_unit (mode_sign link_after_x) /\
  exists s' : ChLinkDistance,
    Update Vnorm_scaled zero false link_after_x = Some s' /\
    curr_dist s' = zero /\
    Cq_a (Cx s') =
      row_a (mode_sign link_after_x) (body_at 0 0 0 0) (pos1 link_after_x)
            (Vnorm_scaled VNULL).
Proof.
  assert (Hp1 : TransformPointLocalToParent (body_at 0 0 0 0)
                  (pos1 link_after_x) = VNULL) by (vm_compute; reflexivity).
  assert (Hp2 : TransformPointLocalToParent (body_at 0 0 0 6)
                  (pos2 link_after_x) = VNULL) by (vm_compute; reflexivity).
  assert (Hfin : finite_vector VNULL) by (repeat split).
  assert (Hunit : is_unit (mode_sign link_after_x)) by (left; reflexivity).
  repeat (split; [first [reflexivity | assumption]|]).
  destruct (Update_at_zero_separation Vnorm_scaled zero false link_after_x
              (body_at 0 0 0 0) (body_at 0 0 0 6) VNULL
              eq_refl eq_refl Hp1 Hp2 Hfin Hunit)
    as (s' & Hret & Hcur & _ & _ & Ha & _).
  exists s'. repeat split; assumption.
Defined.

(** ** The activity gate *)

(** C5, as stated, fails: on an inactive element [ConstraintsBiReset] zeroes
    the bias accumulator and [ConstraintsFetch_react] overwrites the reaction
    force. *)
Lemma inactive_reset_and_fetch_not_noop :
  IsActive link_disabled = false /\
  b_i (Cx link_disabled) = half /\
  b_i (Cx (ConstraintsBiReset link_disabled)) = zero /\
  half <> zero /\
  react_force link_disabled = VNULL /\
  react_force (ConstraintsFetch_react one link_disabled) =
    mkChVector (- two)%D zero zero /\
  mkChVector (- two)%D zero zero <> VNULL.
Proof.
  repeat split; try (vm_compute; reflexivity); discriminate.
Qed.

(** C5, amended. For an inactive element, [IntLoadResidual_CqL],
    [IntLoadConstraint_C], [IntToDescriptor], [IntFromDescriptor],
    [InjectConstraints], [ConstraintsBiLoad_C] and [ConstraintsLoadJacobians]
    leave the element and every vector and registry of the caller unchanged.
    [ConstraintsBiReset] and [ConstraintsFetch_react] are not gated: the
    first zeroes the bias accumulator, the second stores the reaction force
    [(-l_i * factor, 0, 0)] and a zero torque. *)
Theorem inactive_operations
    (MultiplyTandAdd :
       ChConstraintTwoBodies -> ChVectorDynamic -> double ->
       option ChVectorDynamic)
    (off_v off_L : nat) (v : ChStateDelta) (R L Qc : ChVectorDynamic)
    (c recovery_clamp factor : double) (do_clamp : bool)
    (mdescriptor : ChSystemDescriptor) (this : ChLinkDistance) :
  IsActive this = false ->
  IntLoadResidual_CqL MultiplyTandAdd off_L R L c this = Some R /\
  IntLoadConstraint_C off_L Qc c do_clamp recovery_clamp this = Some Qc /\
  IntToDescriptor off_v v R off_L L Qc this = Some this /\
  IntFromDescriptor off_v v off_L L this = Some L /\
  InjectConstraints mdescriptor this = mdescriptor /\
  ConstraintsBiLoad_C factor recovery_clamp do_clamp this = this /\
  ConstraintsLoadJacobians this = this /\
  b_i (Cx (ConstraintsBiReset this)) = zero /\
  react_force (ConstraintsFetch_react factor this) =
    mkChVector (- l_i (Cx this) * factor)%D zero zero /\
  react_torque (ConstraintsFetch_react factor this) = VNULL.
Proof.
  intros Hact.
  unfold IntLoadResidual_CqL, IntLoadConstraint_C, IntToDescriptor,
    IntFromDescriptor, InjectConstraints, ConstraintsBiLoad_C,
    ConstraintsLoadJacobians.
  rewrite Hact. simpl. repeat split.
Qed.

Lemma inactive_operations_witness :
  IsActive link_disabled = false /\
  IntLoadResidual_CqL MultiplyTandAdd_rows 0 [one; two] [ten] one
    link_disabled = Some [one; two] /\
  IntLoadConstraint_C 0 [one] one true half link_disabled = Some [one] /\
  IntFromDescriptor 0 [] 0 [ten] link_disabled = Some [ten] /\
  ConstraintsBiLoad_C one half true link_disabled = link_disabled.
Proof.
  destruct (inactive_operations MultiplyTandAdd_rows 0 0 [] [one; two] [ten]
              [one] one half one true [] link_disabled eq_refl)
    as (H1 & H2 & _ & H4 & _ & H6 & _).
  split; [reflexivity|]. repeat split; assumption.
Defined.

(** ** Round trips of the multiplier *)

Lemma write_at_in_range (off : nat) (a : double) (v : ChVectorDynamic) :
  off < length v -> write_at off a v = Some (<[off := a]> v).
Proof. intros H. unfold write_at. rewrite decide_True by exact H. reflexivity. Qed.

(** C8. For an active element, [IntToDescriptor] with the multiplier [L(off_L)]
    followed by [IntFromDescriptor] at the same offset writes that multiplier
    back into the slot. *)
Theorem IntToDescriptor_IntFromDescriptor (off_v off_v' off_L : nat)
    (v v' : ChStateDelta) (R L Qc L' : ChVectorDynamic) (l q : double)
    (this : ChLinkDistance) :
  IsActive this = true ->
  L !! off_L = Some l ->
  Qc !! off_L = Some q ->
  off_L < length L' ->
  exists s' : ChLinkDistance,
    IntToDescriptor off_v v R off_L L Qc this = Some s' /\
    IntFromDescriptor off_v' v' off_L L' s' = Some (<[off_L := l]> L') /\
    <[off_L := l]> L' !! off_L = Some l.
Proof.
  intros Hact Hl Hq Hlen.
  unfold IntToDescriptor, IntFromDescriptor. rewrite Hact, Hl. simpl.
  rewrite Hq. simpl. eexists. split; [reflexivity|].
  unfold IsActive in *. simpl. rewrite Hact. simpl.
  split; [apply write_at_in_range, Hlen|].
  apply list_lookup_insert_eq, Hlen.
Qed.

Lemma IntToDescriptor_IntFromDescriptor_witness :
  IsActive link_min = true /\
  [one; ten] !! 1 = Some ten /\
  [half; two] !! 1 = Some two /\
  1 < length [zero; zero; zero] /\
  exists s' : ChLinkDistance,
    IntToDescriptor 0 [] [] 1 [one; ten] [half; two] link_min = Some s' /\
    IntFromDescriptor 0 [] 1 [zero; zero; zero] s' = Some [zero; ten; zero].
Proof.
  assert (Hlen : 1 < length [zero; zero; zero]) by (simpl; lia).
  split; [reflexivity|]. split; [reflexivity|]. split; [reflexivity|].
  split; [exact Hlen|].
  destruct (IntToDescriptor_IntFromDescriptor 0 0 1 [] [] [] [one; ten]
              [half; two] [zero; zero; zero] ten two link_min
              eq_refl eq_refl eq_refl Hlen)
    as (s' & H1 & H2 & _).
  exists s'. split; [exact H1 | exact H2].
Defined.

(** C10. [IntStateScatterReactions] with the multiplier [L(off_L)] followed
    by [IntStateGatherReactions] at the same offset writes that multiplier
    back into the slot: the two negations cancel.  Neither function looks at
    the activity of the element. *)
Theorem Scatter_Gather_reactions (off_L : nat) (L L' : ChVectorDynamic)
    (l : double) (this : ChLinkDistance) :
  L !! off_L = Some l ->
  off_L < length L' ->
  exists s' : ChLinkDistance,
    IntStateScatterReactions off_L L this = Some s' /\
    IntStateGatherReactions off_L L' s' = Some (<[off_L := l]> L') /\
    <[off_L := l]> L' !! off_L = Some l /\
    react_force s' = mkChVector (- l)%D zero zero /\
    react_torque s' = VNULL.
Proof.
  intros Hl Hlen.
  unfold IntStateScatterReactions, IntStateGatherReactions. rewrite Hl. simpl.
  eexists. split; [reflexivity|]. simpl.
  rewrite neg_involutive.
  split; [apply write_at_in_range, Hlen|].
  split; [apply list_lookup_insert_eq, Hlen|].
  split; reflexivity.
Qed.

Lemma Scatter_Gather_reactions_witness :
  [one; ten] !! 1 = Some ten /\
  1 < length [zero; zero; zero] /\
  (exists s' : ChLinkDistance,
     IntStateScatterReactions 1 [one; ten] link_disabled = Some s' /\
     IntStateGatherReactions 1 [zero; zero; zero] s' =
       Some [zero; ten; zero]) /\
  (exists s' : ChLinkDistance,
     IntStateScatterReactions 1 [one; ten] link_min = Some s' /\
     IntStateGatherReactions 1 [zero; zero; zero] s' =
       Some [zero; ten; zero]).
Proof.
  assert (Hlen : 1 < length [zero; zero; zero]) by (simpl; lia).
  split; [reflexivity|]. split; [exact Hlen|]. split.
  - destruct (Scatter_Gather_reactions 1 [one; ten] [zero; zero; zero] ten
                link_disabled eq_refl Hlen) as (s' & H1 & H2 & _).
    exists s'. split; [exact H1 | exact H2].
  - destruct (Scatter_Gather_reactions 1 [one; ten] [zero; zero; zero] ten
                link_min eq_refl Hlen) as (s' & H1 & H2 & _).
    exists s'. split; [exact H1 | exact H2].
Defined.

(** ** Further properties of ChLinkDistance *)

(** X1. [Update] twice in a row, with the bodies where they were: the second call
    stores the same current distance, violation and Jacobian rows as the
    first; only the time differs. *)
Theorem Update_twice (Vnorm : ChVector -> ChVector) (t1 t2 : double)
    (u1 u2 : bool) (this : ChLinkDistance) (b1 b2 : ChBodyFrame) :
  Body1 this = Some b1 -> Body2 this = Some b2 ->
  exists s1 s2 : ChLinkDistance,
    Update Vnorm t1 u1 this = Some s1 /\
    Update Vnorm t2 u2 s1 = Some s2 /\
    s2 = set_ChTime t2 s1 /\
    observables s2 = observables s1 /\
    Update Vnorm t2 u2 s1 = Update Vnorm t2 u2 this.
Proof.
  intros H1 H2. destruct this; simpl in *; subst.
  eexists; eexists.
  split; [reflexivity|].
  split; [run_Update; reflexivity|].
  split; [run_Update; reflexivity|].
  split; [reflexivity|].
  run_Update; reflexivity.
Qed.

Lemma Update_twice_witness :
  Body1 link_max_moved = Some (body_at 0 0 0 0) /\
  Body2 link_max_moved = Some (body_at 3 0 0 6) /\
  exists s1 s2 : ChLinkDistance,
    Update Vnorm_scaled zero false link_max_moved = Some s1 /\
    Update Vnorm_scaled one false s1 = Some s2 /\
    observables s2 = observables s1.
Proof.
  split; [reflexivity|]. split; [reflexivity|].
  destruct (Update_twice Vnorm_scaled zero one false false link_max_moved
              (body_at 0 0 0 0) (body_at 3 0 0 6) eq_refl eq_refl)
    as (s1 & s2 & E1 & E2 & _ & Hobs & _).
  exists s1, s2. repeat split; assumption.
Defined.

(** X2. Every operation that returns an element keeps the mode triple: the sign
    convention and the kind of the primitive never drift from the mode. *)
Theorem operations_keep_mode_triple (m : Mode) (this : ChLinkDistance) :
  mode_triple m this ->
  (forall Vnorm t u s', Update Vnorm t u this = Some s' -> mode_triple m s') /\
  (forall off L s',
      IntStateScatterReactions off L this = Some s' -> mode_triple m s') /\
  (forall off_v v R off L Qc s',
      IntToDescriptor off_v v R off L Qc this = Some s' ->
      mode_triple m s') /\
  mode_triple m (ConstraintsBiReset this) /\
  (forall f rc cl, mode_triple m (ConstraintsBiLoad_C f rc cl this)) /\
  mode_triple m (ConstraintsLoadJacobians this) /\
  (forall f, mode_triple m (ConstraintsFetch_react f this)).
Proof.
  intros Hm.
  refine (conj _ (conj _ (conj _ (conj _ (conj _ (conj _ _)))))).
  - intros Vnorm t u s'. unfold Update. simpl.
    destruct (Body1 this); [|discriminate].
    destruct (Body2 this); [|discriminate].
    simpl. intros [= <-]. exact Hm.
  - intros off L s'. unfold IntStateScatterReactions.
    destruct (L !! off); [|discriminate]. simpl. intros [= <-]. exact Hm.
  - intros off_v v R off L Qc s'. unfold IntToDescriptor.
    destruct (IsActive this); simpl; [|intros [= <-]; exact Hm].
    destruct (L !! off); [|discriminate]. simpl.
    destruct (Qc !! off); [|discriminate]. simpl. intros [= <-]. exact Hm.
  - exact Hm.
  - intros f rc cl. unfold ConstraintsBiLoad_C.
    destruct (IsActive this), cl; exact Hm.
  - exact Hm.
  - intros f. exact Hm.
Qed.

Lemma operations_keep_mode_triple_witness :
  mode_triple UNILATERAL_MINDISTANCE link_min /\
  mode_triple UNILATERAL_MINDISTANCE
    (ConstraintsFetch_react two (ConstraintsBiLoad_C one half true link_min)).
Proof.
  assert (H : mode_triple UNILATERAL_MINDISTANCE link_min).
  { unfold mode_triple. simpl.
    repeat split; intros; try congruence; try discriminate. }
  split; [exact H|].
  destruct (operations_keep_mode_triple _ _ H) as (_ & _ & _ & _ & HB & _).
  destruct (operations_keep_mode_triple _ _ (HB one half true))
    as (_ & _ & _ & _ & _ & _ & HF).
  apply HF.
Defined.

(** *** The clamp keeps the contribution inside the recovery limit *)

Lemma lt_dle (a b : double) : lt a b = true -> dle a b = true.
Proof.
  unfold lt, dle, SFltb, SFleb.
  destruct (SFcompare a b) as [[]|]; congruence.
Qed.

Lemma dle_not_nan (a b : double) :
  dle a b = true -> is_nan a = false /\ is_nan b = false.
Proof.
  unfold dle, SFleb. destruct a, b; simpl; try discriminate; auto.
Qed.

Lemma dle_refl (a : double) : is_nan a = false -> dle a a = true.
Proof.
  unfold dle, SFleb. destruct a as [s|s| |s m e]; simpl; try discriminate;
    intros _; try reflexivity.
  - destruct s; reflexivity.
  - rewrite Z.compare_refl, Pos.compare_cont_refl. destruct s; reflexivity.
Qed.

(** The symmetric clamp [ChMin(ChMax(x, -rc), rc)] lies in [[-rc, rc]] for
    every [x], a NaN or an infinity included, as soon as [-rc <= rc]. *)
Lemma symmetric_clamp_bounds (x rc : double) :
  dle (- rc) rc = true ->
  dle (- rc) (ChMin (ChMax x (- rc)) rc) = true /\
  dle (ChMin (ChMax x (- rc)) rc) rc = true.
Proof.
  intros Hrc. destruct (dle_not_nan _ _ Hrc) as [Hn1 Hn2].
  assert (Hlow : dle (- rc) (ChMax x (- rc)) = true).
  { unfold ChMax, gt. destruct (SFltb (- rc)%D x) eqn:E.
    - apply lt_dle, E.
    - apply dle_refl, Hn1. }
  unfold ChMin. destruct (lt (ChMax x (- rc)) rc) eqn:E.
  - split; [exact Hlow | apply lt_dle, E].
  - split; [exact Hrc | apply dle_refl, Hn2].
Qed.

(** The one-sided clamp [ChMax(x, -rc)] is at least [-rc] for every [x], a
    NaN included, when [rc] is a number. *)
Lemma one_sided_clamp_bound (x rc : double) :
  is_nan rc = false -> dle (- rc) (ChMax x (- rc)) = true.
Proof.
  intros Hn. unfold ChMax, gt. destruct (SFltb (- rc)%D x) eqn:E.
  - apply lt_dle, E.
  - apply dle_refl. rewrite neg_is_nan. exact Hn.
Qed.

(** X3. With clamping, an active element adds to its slot of [Qc] a value [r]
    that is never below [-recovery_clamp], and in the bilateral mode never
    above [recovery_clamp], whatever the scaled violation is: a NaN or an
    infinite violation is clamped too. *)
Theorem IntLoadConstraint_C_clamp_bounds (off_L : nat) (Qc : ChVectorDynamic)
    (c recovery_clamp q : double) (this : ChLinkDistance) :
  IsActive this = true ->
  Qc !! off_L = Some q ->
  dle (- recovery_clamp) recovery_clamp = true ->
  exists r : double,
    IntLoadConstraint_C off_L Qc c true recovery_clamp this =
      Some (<[off_L := (q + r)%D]> Qc) /\
    dle (- recovery_clamp) r = true /\
    (mode this = BILATERAL -> dle r recovery_clamp = true).
Proof.
  intros Hact Hq Hrc. unfold IntLoadConstraint_C. rewrite Hact. simpl.
  destruct (symmetric_clamp_bounds (c * C this)%D recovery_clamp Hrc)
    as [Hlo Hhi].
  destruct (dle_not_nan _ _ Hrc) as [_ Hn].
  destruct (mode this); simpl; unfold add_at; rewrite Hq; simpl;
    eexists; (split; [reflexivity|]).
  - split; [exact Hlo | intros _; exact Hhi].
  - split; [apply one_sided_clamp_bound, Hn | discriminate].
  - split; [apply one_sided_clamp_bound, Hn | discriminate].
Qed.

(** A bilateral element whose violation is a NaN: the target distance read
    from a damaged archive. *)
Lemma IntLoadConstraint_C_clamp_bounds_witness :
  IsActive (set_C S754_nan (SetMode BILATERAL link_min)) = true /\
  [two] !! 0 = Some two /\
  dle (- half) half = true /\
  exists r : double,
    IntLoadConstraint_C 0 [two] one true half
      (set_C S754_nan (SetMode BILATERAL link_min)) = Some [(two + r)%D] /\
    dle (- half) r = true /\ dle r half = true.
Proof.
  assert (Hrc : dle (- half) half = true) by (vm_compute; reflexivity).
  split; [reflexivity|]. split; [reflexivity|]. split; [exact Hrc|].
  destruct (IntLoadConstraint_C_clamp_bounds 0 [two] one half two
              (set_C S754_nan (SetMode BILATERAL link_min))
              eq_refl eq_refl Hrc) as (r & Hret & Hlo & Hhi).
  exists r. split; [exact Hret|]. split; [exact Hlo | apply Hhi; reflexivity].
Defined.

Lemma ConstraintsBiLoad_C_adds_clamped (factor recovery_clamp : double)
    (this : ChLinkDistance) :
  IsActive this = true ->
  dle (- recovery_clamp) recovery_clamp = true ->
  exists r : double,
    ConstraintsBiLoad_C factor recovery_clamp true this =
      set_Cx (Cx_ops.Set_b_i (b_i (Cx this) + r)%D (Cx this)) this /\
    dle (- recovery_clamp) r = true /\ dle r recovery_clamp = true.
Proof.
  intros Hact Hrc. unfold ConstraintsBiLoad_C. rewrite Hact. simpl.
  eexists. split; [reflexivity|].
  apply symmetric_clamp_bounds, Hrc.
Qed.

(** X4. With clamping, [ConstraintsBiLoad_C] on an active element adds to the
    bias a value inside [[-recovery_clamp, recovery_clamp]], in every mode
    and for every violation, and changes nothing else. *)
Theorem ConstraintsBiLoad_C_clamp_bounds (factor recovery_clamp : double)
    (this : ChLinkDistance) :
  IsActive this = true ->
  dle (- recovery_clamp) recovery_clamp = true ->
  exists r : double,
    ConstraintsBiLoad_C factor recovery_clamp true this =
      set_Cx (Cx_ops.Set_b_i (b_i (Cx this) + r)%D (Cx this)) this /\
    dle (- recovery_clamp) r = true /\ dle r recovery_clamp = true.
Proof.
  intros Hact Hrc. unfold ConstraintsBiLoad_C. rewrite Hact. simpl.
  eexists. split; [reflexivity|].
  apply symmetric_clamp_bounds, Hrc.
Qed.

Lemma ConstraintsBiLoad_C_clamp_bounds_witness :
  IsActive link_max = true /\
  dle (- half) half = true /\
  exists r : double,
    b_i (Cx (ConstraintsBiLoad_C (- two)%D half true link_max)) =
      (b_i (Cx link_max) + r)%D /\
    dle (- half) r = true /\ dle r half = true.
Proof.
  assert (Hrc : dle (- half) half = true) by (vm_compute; reflexivity).
  split; [reflexivity|]. split; [exact Hrc|].
  destruct (ConstraintsBiLoad_C_clamp_bounds (- two)%D half link_max
              eq_refl Hrc) as (r & Hret & Hlo & Hhi).
  exists r. rewrite Hret. split; [reflexivity|]. split; assumption.
Defined.

(** *** Only the element's own slot is written *)

Lemma add_at_frame (off : nat) (a : double) (v : ChVectorDynamic) :
  (off < length v ->
   exists v', add_at off a v = Some v' /\ length v' = length v /\
              forall j, j <> off -> v' !! j = v !! j) /\
  (length v <= off -> add_at off a v = None).
Proof.
  unfold add_at. split.
  - intros Hlt. destruct (lookup_lt_is_Some_2 v off Hlt) as [q Hq].
    rewrite Hq. simpl. eexists. split; [reflexivity|].
    split; [apply length_insert|].
    intros j Hj. apply list_lookup_insert_ne. congruence.
  - intros Hge. rewrite (lookup_ge_None_2 v off Hge). reflexivity.
Qed.

(** X5. For an active element, [IntLoadConstraint_C] is defined exactly when
    [off_L] is inside [Qc]; it then keeps the size of [Qc] and every entry
    other than [off_L], in every mode and with or without clamping. *)
Theorem IntLoadConstraint_C_frame (off_L : nat) (Qc : ChVectorDynamic)
    (c recovery_clamp : double) (do_clamp : bool) (this : ChLinkDistance) :
  IsActive this = true ->
  (off_L < length Qc ->
   exists Qc' : ChVectorDynamic,
     IntLoadConstraint_C off_L Qc c do_clamp recovery_clamp this = Some Qc' /\
     length Qc' = length Qc /\
     forall j, j <> off_L -> Qc' !! j = Qc !! j) /\
  (length Qc <= off_L ->
   IntLoadConstraint_C off_L Qc c do_clamp recovery_clamp this = None).
Proof.
  intros Hact. unfold IntLoadConstraint_C. rewrite Hact. simpl.
  destruct do_clamp; [destruct (Mode_eqb (mode this) BILATERAL)|];
    apply add_at_frame.
Qed.

Lemma IntLoadConstraint_C_frame_witness :
  IsActive link_min = true /\
  IntLoadConstraint_C 1 [one; two; three] one false half link_min =
    Some [one; (two + one * ten)%D; three] /\
  IntLoadConstraint_C 3 [one; two; three] one false half link_min = None.
Proof.
  split; [reflexivity|].
  destruct (IntLoadConstraint_C_frame 1 [one; two; three] one half false
              link_min eq_refl) as [_ _].
  destruct (IntLoadConstraint_C_frame 3 [one; two; three] one half false
              link_min eq_refl) as [_ Hnone].
  split; [reflexivity|]. apply Hnone. simpl. lia.
Defined.

(** *** One sign flip for the three modes *)

Lemma binary_round_aux_opp (p e : Z) (s : bool) (m ex : Z) (l : location) :
  binary_round_aux p e (negb s) m ex l = SFopp (binary_round_aux p e s m ex l).
Proof.
  unfold binary_round_aux.
  destruct (shr_fexp p e m ex l) as [mrs' e'].
  destruct (shr_fexp p e _ e' loc_Exact) as [mrs'' e''].
  destruct (shr_m mrs''); try reflexivity.
  destruct (e'' <=? e - p)%Z; reflexivity.
Qed.

Lemma mul_minus_one_neg (a : double) : (minus_one * a)%D = (- (one * a))%D.
Proof.
  destruct a as [s|s| |s m e]; try reflexivity.
  unfold mul, SFmul, minus_one, one, neg. simpl xorb.
  apply (binary_round_aux_opp prec emax s).
Qed.

(** X6. For the same bodies, anchors and target distance, the bilateral and the
    minimum-distance mode store the same violation and the maximum-distance
    mode stores its negation; the measured and the target distance do not
    depend on the mode. *)
Theorem violation_sign_flip (b1 b2 : ChBodyFrame) (rel : bool)
    (p1 p2 : ChVector) (auto : bool) (d : double) (this : ChLinkDistance) :
  exists smax smin sbi : ChLinkDistance,
    Initialize (Some b1) (Some b2) rel p1 p2 auto d UNILATERAL_MAXDISTANCE
      this = Some (smax, 1%Z) /\
    Initialize (Some b1) (Some b2) rel p1 p2 auto d UNILATERAL_MINDISTANCE
      this = Some (smin, 1%Z) /\
    Initialize (Some b1) (Some b2) rel p1 p2 auto d BILATERAL
      this = Some (sbi, 1%Z) /\
    curr_dist smax = curr_dist smin /\ curr_dist sbi = curr_dist smin /\
    distance smax = distance smin /\ distance sbi = distance smin /\
    C smax = (- C smin)%D /\ C sbi = C smin.
Proof.
  destruct (Initialize_bound b1 b2 rel p1 p2 auto d UNILATERAL_MAXDISTANCE this)
    as (smax & R1 & _ & _ & _ & S1 & _ & P1 & Q1 & D1 & T1 & C1 & _).
  destruct (Initialize_bound b1 b2 rel p1 p2 auto d UNILATERAL_MINDISTANCE this)
    as (smin & R2 & _ & _ & _ & S2 & _ & P2 & Q2 & D2 & T2 & C2 & _).
  destruct (Initialize_bound b1 b2 rel p1 p2 auto d BILATERAL this)
    as (sbi & R3 & _ & _ & _ & S3 & _ & P3 & Q3 & D3 & T3 & C3 & _).
  simpl in S1, S2, S3.
  assert (E1 : curr_dist smax = curr_dist smin)
    by (rewrite D1, D2, P1, P2, Q1, Q2; reflexivity).
  assert (E3 : curr_dist sbi = curr_dist smin)
    by (rewrite D3, D2, P3, P2, Q3, Q2; reflexivity).
  assert (F1 : distance smax = distance smin)
    by (rewrite T1, T2, E1; reflexivity).
  assert (F3 : distance sbi = distance smin)
    by (rewrite T3, T2, E3; reflexivity).
  exists smax, smin, sbi.
  repeat (split; [assumption|]). split.
  - rewrite C1, C2, S1, S2, E1, F1. apply mul_minus_one_neg.
  - rewrite C3, C2, S3, S2, E3, F3. reflexivity.
Qed.

(** *** Copies, archives and world-frame anchors *)

(** X7. A copy of a mode-consistent element with two bound bodies gives, at the
    next [Update], the same current distance, violation and Jacobian rows as
    the original. *)
Theorem copy_then_Update (Vnorm : ChVector -> ChVector) (t : double)
    (u : bool) (other this : ChLinkDistance) (b1 b2 : ChBodyFrame) :
  Body1 other = Some b1 -> Body2 other = Some b2 ->
  mode_triple (mode other) other ->
  exists c : ChLinkDistance,
    ChLinkDistance_copy other this = Some c /\
    observables <$> Update Vnorm t u c =
      observables <$> Update Vnorm t u other.
Proof.
  intros H1 H2 (_ & M1 & M2 & _).
  unfold ChLinkDistance_copy. rewrite H1, H2. simpl.
  eexists. split; [reflexivity|].
  match goal with |- context [Update Vnorm t u ?c] => set (cp := c) end.
  assert (Hms : mode_sign cp = mode_sign other).
  { subst cp. simpl. destruct (mode other); simpl; symmetry.
    - apply M2. discriminate.
    - apply M1. reflexivity.
    - apply M2. discriminate. }
  destruct (Update_bound Vnorm t u cp b1 b2 eq_refl eq_refl)
    as (sc & Rc & Dc & Cc & Ac & Bc & Sc & Tc & _).
  destruct (Update_bound Vnorm t u other b1 b2 H1 H2)
    as (so & Ro & Do & Co & Ao & Bo & So & To & _).
  rewrite Rc, Ro. simpl. unfold observables, rows.
  rewrite Cc, Co, Ac, Ao, Bc, Bo, Sc, So, Tc, To, Dc, Do, Hms.
  reflexivity.
Qed.

Lemma copy_then_Update_witness :
  Body1 link_max_moved = Some (body_at 0 0 0 0) /\
  Body2 link_max_moved = Some (body_at 3 0 0 6) /\
  mode_triple (mode link_max_moved) link_max_moved /\
  exists c : ChLinkDistance,
    ChLinkDistance_copy link_max_moved (link_base false) = Some c /\
    observables <$> Update Vnorm_scaled zero false c =
      observables <$> Update Vnorm_scaled zero false link_max_moved.
Proof.
  assert (H : mode_triple (mode link_max_moved) link_max_moved).
  { unfold mode_triple. simpl.
    repeat split; intros; try congruence; try discriminate. }
  split; [reflexivity|]. split; [reflexivity|]. split; [exact H|].
  exact (copy_then_Update Vnorm_scaled zero false link_max_moved
           (link_base false) (body_at 0 0 0 0) (body_at 3 0 0 6)
           eq_refl eq_refl H).
Defined.

(** X8. With anchors given in world coordinates, and bodies whose local-to-world
    transform undoes the world-to-local one at these two points, the distance
    that [Initialize] measures is the distance between the two given points. *)
Theorem Initialize_world_points (b1 b2 : ChBodyFrame) (p1 p2 : ChVector)
    (auto : bool) (d : double) (m : Mode) (this : ChLinkDistance) :
  TransformPointLocalToParent b1 (TransformPointParentToLocal b1 p1) = p1 ->
  TransformPointLocalToParent b2 (TransformPointParentToLocal b2 p2) = p2 ->
  exists s' : ChLinkDistance,
    Initialize (Some b1) (Some b2) false p1 p2 auto d m this = Some (s', 1%Z) /\
    curr_dist s' = Length (Vsub p1 p2) /\
    distance s' = (if auto then Length (Vsub p1 p2) else d).
Proof.
  intros H1 H2.
  destruct (Initialize_bound b1 b2 false p1 p2 auto d m this)
    as (s' & Hret & _ & _ & _ & _ & _ & P1 & P2 & Hcur & Hd & _).
  exists s'. split; [exact Hret|].
  assert (E : curr_dist s' = Length (Vsub p1 p2))
    by (rewrite Hcur, P1, P2, H1, H2; reflexivity).
  split; [exact E|]. rewrite Hd, E. reflexivity.
Qed.

Lemma Initialize_world_points_witness :
  TransformPointLocalToParent (body_at 2 0 0 0)
    (TransformPointParentToLocal (body_at 2 0 0 0)
       (mkChVector (of_int 5) one one)) = mkChVector (of_int 5) one one /\
  TransformPointLocalToParent (body_at 0 3 0 6)
    (TransformPointParentToLocal (body_at 0 3 0 6)
       (mkChVector one one one)) = mkChVector one one one /\
  exists s' : ChLinkDistance,
    Initialize (Some (body_at 2 0 0 0)) (Some (body_at 0 3 0 6)) false
      (mkChVector (of_int 5) one one) (mkChVector one one one) true zero
      BILATERAL (link_base true) = Some (s', 1%Z) /\
    curr_dist s' = of_int 4 /\ distance s' = of_int 4.
Proof.
  assert (H1 : TransformPointLocalToParent (body_at 2 0 0 0)
                 (TransformPointParentToLocal (body_at 2 0 0 0)
                    (mkChVector (of_int 5) one one))
               = mkChVector (of_int 5) one one) by (vm_compute; reflexivity).
  assert (H2 : TransformPointLocalToParent (body_at 0 3 0 6)
                 (TransformPointParentToLocal (body_at 0 3 0 6)
                    (mkChVector one one one))
               = mkChVector one one one) by (vm_compute; reflexivity).
  split; [exact H1|]. split; [exact H2|].
  destruct (Initialize_world_points (body_at 2 0 0 0) (body_at 0 3 0 6)
              (mkChVector (of_int 5) one one) (mkChVector one one one)
              true zero BILATERAL (link_base true) H1 H2)
    as (s' & Hret & Hc & Hd).
  exists s'. split; [exact Hret|].
  rewrite Hc, Hd. split; vm_compute; reflexivity.
Defined.

(** X9. Reading back what [ArchiveOut] wrote restores the target distance, the
    two anchors and the mode, and derives the sign convention and the kind of
    the primitive again; the current distance and the violation are not part
    of the archive and stay as the parent class left them. *)
Theorem ArchiveOut_ArchiveIn
    (ChLink_ArchiveIn : ChLinkDistance -> ChLinkDistance)
    (s t : ChLinkDistance) (b1 b2 : ChBodyFrame) :
  Body1 (ChLink_ArchiveIn t) = Some b1 ->
  Body2 (ChLink_ArchiveIn t) = Some b2 ->
  exists t' : ChLinkDistance,
    ArchiveIn ChLink_ArchiveIn (ArchiveOut s) t = Some t' /\
    distance t' = distance s /\ pos1 t' = pos1 s /\ pos2 t' = pos2 s /\
    mode_triple (mode s) t' /\
    ArchiveOut t' = ArchiveOut s /\
    curr_dist t' = curr_dist (ChLink_ArchiveIn t) /\
    C t' = C (ChLink_ArchiveIn t).
Proof.
  intros H1 H2. unfold ArchiveIn. simpl. rewrite H1, H2. simpl.
  eexists. split; [reflexivity|].
  split; [reflexivity|]. split; [reflexivity|]. split; [reflexivity|].
  split; [apply SetMode_mode_triple|].
  repeat split.
Qed.

Lemma ArchiveOut_ArchiveIn_witness :
  Body1 link_min = Some (body_at 0 0 0 0) /\
  Body2 link_min = Some (body_at 12 0 0 6) /\
  exists t' : ChLinkDistance,
    ArchiveIn (fun s => s) (ArchiveOut link_max) link_min = Some t' /\
    distance t' = of_int 12 /\ mode_sign t' = minus_one /\
    C t' = C link_min.
Proof.
  split; [reflexivity|]. split; [reflexivity|].
  destruct (ArchiveOut_ArchiveIn (fun s => s) link_max link_min
              (body_at 0 0 0 0) (body_at 12 0 0 6) eq_refl eq_refl)
    as (t' & Hret & Hd & _ & _ & (_ & Hs & _) & _ & _ & HC).
  exists t'. split; [exact Hret|]. split; [exact Hd|].
  split; [apply Hs; reflexivity | exact HC].
Defined.

(** X10. [Update] right after [Initialize], with the bodies where they were,
    changes neither the current distance nor the violation nor the target
    distance. *)
Theorem Initialize_then_Update (Vnorm : ChVector -> ChVector) (t : double)
    (u : bool) (b1 b2 : ChBodyFrame) (rel : bool) (p1 p2 : ChVector)
    (auto : bool) (d : double) (m : Mode) (this : ChLinkDistance) :
  exists s0 s1 : ChLinkDistance,
    Initialize (Some b1) (Some b2) rel p1 p2 auto d m this = Some (s0, 1%Z) /\
    Update Vnorm t u s0 = Some s1 /\
    curr_dist s1 = curr_dist s0 /\ distance s1 = distance s0 /\
    C s1 = C s0.
Proof.
  destruct (Initialize_bound b1 b2 rel p1 p2 auto d m this)
    as (s0 & R0 & B1 & B2 & _ & _ & _ & _ & _ & D0 & _ & C0 & _).
  destruct (Update_bound Vnorm t u s0 b1 b2 B1 B2)
    as (s1 & R1 & D1 & C1 & _ & _ & S1 & T1 & _).
  exists s0, s1. split; [exact R0|]. split; [exact R1|].
  assert (E : curr_dist s1 = curr_dist s0) by (rewrite D1, D0; reflexivity).
  split; [exact E|]. split; [exact T1|].
  rewrite C1, C0, S1, T1, E. reflexivity.
Qed.

(** X11. On an element whose reaction is the one [IntStateScatterReactions] or
    [ConstraintsFetch_react] leaves (a force along x, no torque),
    [IntStateGatherReactions] followed by [IntStateScatterReactions] at the
    same offset gives the element back unchanged. *)
Theorem Gather_Scatter_reactions (off_L : nat) (L : ChVectorDynamic)
    (f : double) (this : ChLinkDistance) :
  react_force this = mkChVector f zero zero ->
  react_torque this = VNULL ->
  off_L < length L ->
  exists L' : ChVectorDynamic,
    IntStateGatherReactions off_L L this = Some L' /\
    IntStateScatterReactions off_L L' this = Some this.
Proof.
  intros Hf Ht Hlen. unfold IntStateGatherReactions.
  rewrite (write_at_in_range _ _ _ Hlen).
  eexists. split; [reflexivity|].
  unfold IntStateScatterReactions.
  rewrite (list_lookup_insert_eq L off_L _ Hlen). simpl.
  rewrite neg_involutive.
  destruct this; simpl in *. subst. reflexivity.
Qed.

Lemma Gather_Scatter_reactions_witness :
  react_force (ConstraintsFetch_react one link_disabled) =
    mkChVector (- l_i (Cx link_disabled) * one)%D zero zero /\
  react_torque (ConstraintsFetch_react one link_disabled) = VNULL /\
  0 < length [ten] /\
  exists L' : ChVectorDynamic,
    IntStateGatherReactions 0 [ten]
      (ConstraintsFetch_react one link_disabled) = Some L' /\
    IntStateScatterReactions 0 L'
      (ConstraintsFetch_react one link_disabled) =
      Some (ConstraintsFetch_react one link_disabled).
Proof.
  assert (Hlen : 0 < length [ten]) by (simpl; lia).
  split; [reflexivity|]. split; [reflexivity|]. split; [exact Hlen|].
  exact (Gather_Scatter_reactions 0 [ten] _
           (ConstraintsFetch_react one link_disabled) eq_refl eq_refl Hlen).
Defined.

(** ** Properties of ChVisualShapeBarrel *)

(** X12. If the parent class reads back exactly what it wrote, [ArchiveIn] on what
    [ArchiveOut] wrote consumes exactly that and restores the five members:
    the heights, the two radii (not halved a second time) and the offset. *)
Theorem Barrel_ArchiveOut_ArchiveIn
    (ChVisualShape_ArchiveOut : Barrel.ChVisualShapeBarrel -> Barrel.ChArchive)
    (ChVisualShape_ArchiveIn :
       Barrel.ChArchive -> Barrel.ChVisualShapeBarrel ->
       option (Barrel.ChVisualShapeBarrel * Barrel.ChArchive)) :
  (forall b t rest, exists t',
      ChVisualShape_ArchiveIn (ChVisualShape_ArchiveOut b ++ rest) t =
        Some (t', rest)) ->
  forall (b t : Barrel.ChVisualShapeBarrel) (rest : Barrel.ChArchive),
  exists t' : Barrel.ChVisualShapeBarrel,
    Barrel.ArchiveIn ChVisualShape_ArchiveIn
      (Barrel.ArchiveOut ChVisualShape_ArchiveOut b [] ++ rest) t =
      Some (t', rest) /\
    Barrel.Hlow t' = Barrel.Hlow b /\ Barrel.Hsup t' = Barrel.Hsup b /\
    Barrel.Rvert t' = Barrel.Rvert b /\ Barrel.Rhor t' = Barrel.Rhor b /\
    Barrel.Roffset t' = Barrel.Roffset b.
Proof.
  intros Hparent b t rest.
  unfold Barrel.ArchiveOut, Barrel.write_nvp. simpl.
  rewrite <- !app_assoc. simpl.
  match goal with
  | |- context [ChVisualShape_ArchiveOut b ++ ?r] =>
      destruct (Hparent b t r) as [t0 Ht0]
  end.
  unfold Barrel.ArchiveIn. rewrite Ht0. simpl.
  eexists. split; [reflexivity|]. repeat split.
Qed.

Lemma Barrel_ArchiveOut_ArchiveIn_witness :
  (forall b t rest, exists t',
      Barrel.no_parent_in (Barrel.no_parent_out b ++ rest) t = Some (t', rest))
  /\
  exists t' : Barrel.ChVisualShapeBarrel,
    Barrel.ArchiveIn Barrel.no_parent_in
      (Barrel.ArchiveOut Barrel.no_parent_out Barrel.barrel_4_2 []) 
      Barrel.barrel0 = Some (t', []) /\
    Barrel.Rvert t' = two /\ Barrel.Rhor t' = one.
Proof.
  assert (H : forall b t rest, exists t',
             Barrel.no_parent_in (Barrel.no_parent_out b ++ rest) t =
               Some (t', rest))
    by (intros b t rest; exists t; reflexivity).
  split; [exact H|].
  destruct (Barrel_ArchiveOut_ArchiveIn Barrel.no_parent_out
              Barrel.no_parent_in H Barrel.barrel_4_2 Barrel.barrel0 [])
    as (t' & Hret & _ & _ & Hv & Hh & _).
  exists t'. rewrite app_nil_r in Hret. split; [exact Hret|].
  rewrite Hv, Hh. split; vm_compute; reflexivity.
Defined.

(** ** Properties of GetDiceShapeData *)

(** X13. The mesh has 24 vertices, each with a normal and a texture coordinate,
    and 36 indices, every one of them the index of a vertex (and an unsigned
    short). *)
Theorem Dice_indices_in_range :
  length (Dice.vertices Dice.GetDiceShapeData) = 24 /\
  length (Dice.normals Dice.GetDiceShapeData) = 24 /\
  length (Dice.texcoords Dice.GetDiceShapeData) = 24 /\
  length (Dice.indices Dice.GetDiceShapeData) = 36 /\
  Forall (fun i =>
            (0 <= i < Z.of_nat (length (Dice.vertices Dice.GetDiceShapeData)))%Z
            /\ (i < 65536)%Z)
         (Dice.indices Dice.GetDiceShapeData).
Proof.
  repeat (split; [reflexivity|]).
  change (length (Dice.vertices Dice.GetDiceShapeData)) with 24.
  unfold Dice.GetDiceShapeData. cbn [Dice.indices].
  repeat (constructor; [lia|]). constructor.
Qed.

(** X14. The 36 indices are 12 triangles.  Each one addresses three vertices that
    carry the same normal [n], lie in the plane [n . p = 1] and are wound
    counter-clockwise seen from outside (the cross product of the two edges
    from the first vertex is [4 n]); there is no thirteenth triangle. *)
Theorem Dice_triangles_well_formed (k : nat) :
  (k < 12 -> Dice.triangle_ok Dice.GetDiceShapeData k = true) /\
  (12 <= k -> Dice.triangle Dice.GetDiceShapeData k = None).
Proof.
  split.
  - intros Hk.
    do 12 (destruct k as [|k]; [vm_compute; reflexivity|]). lia.
  - intros Hk. unfold Dice.triangle.
    rewrite (lookup_ge_None_2 (Dice.indices Dice.GetDiceShapeData) (3 * k));
      [reflexivity|].
    change (length (Dice.indices Dice.GetDiceShapeData)) with 36. lia.
Qed.

(** X15. The radius stored is greater than the distance of every vertex from the
    origin, and it is the same [float] whether [sqrt] is the [float] or the
    [double] overload. *)
Theorem Dice_bounding_sphere :
  Forall (fun p =>
            Dice.flt (Dice.norm3 p)
              (Dice.boundingSphereRadius Dice.GetDiceShapeData) = true)
         (Dice.vertices Dice.GetDiceShapeData) /\
  Dice.boundingSphereRadius_double_sqrt =
    Dice.boundingSphereRadius Dice.GetDiceShapeData.
Proof.
  split; [|vm_compute; reflexivity].
  unfold Dice.GetDiceShapeData at 2. cbn [Dice.vertices].
  repeat (constructor; [vm_compute; reflexivity|]). constructor.
Qed.

(** X16. Every texture coordinate lies in the unit square. *)
Theorem Dice_texcoords_in_unit_square :
  Forall (fun t =>
            Dice.fle (Dice.of_int 0) (Dice.x2 t) = true /\
            Dice.fle (Dice.x2 t) (Dice.of_int 1) = true /\
            Dice.fle (Dice.of_int 0) (Dice.y2 t) = true /\
            Dice.fle (Dice.y2 t) (Dice.of_int 1) = true)
         (Dice.texcoords Dice.GetDiceShapeData).
Proof.
  unfold Dice.GetDiceShapeData. cbn [Dice.texcoords].
  repeat (constructor; [repeat split; vm_compute; reflexivity|]). constructor.
Qed.

Lemma Dice_triangles_well_formed_witness :
  5 < 12 /\ 12 <= 12 /\
  Dice.triangle Dice.GetDiceShapeData 5 = Some (8, 10, 11)%Z /\
  Dice.triangle_ok Dice.GetDiceShapeData 5 = true /\
  Dice.triangle Dice.GetDiceShapeData 12 = None.
Proof.
  assert (H5 : 5 < 12) by lia. assert (H12 : 12 <= 12) by lia.
  split; [exact H5|]. split; [exact H12|]. split; [reflexivity|].
  split.
  - exact (proj1 (Dice_triangles_well_formed 5) H5).
  - exact (proj2 (Dice_triangles_well_formed 12) H12).
Defined.

(** ** What Update and Initialize leave alone *)

(** X17. [Update] writes the time, the current distance, the Jacobian rows and the
    violation, and nothing else: the multiplier, the bias, the kind and the
    variable blocks of the primitive, the reaction, the anchors, the target
    distance, the mode with its sign and the activity stay as they were. *)
Theorem Update_frame (Vnorm : ChVector -> ChVector) (t : double) (u : bool)
    (this : ChLinkDistance) (b1 b2 : ChBodyFrame) :
  Body1 this = Some b1 -> Body2 this = Some b2 ->
  exists s' : ChLinkDistance,
    Update Vnorm t u this = Some s' /\
    l_i (Cx s') = l_i (Cx this) /\ b_i (Cx s') = b_i (Cx this) /\
    c_mode (Cx s') = c_mode (Cx this) /\
    variables_a (Cx s') = variables_a (Cx this) /\
    variables_b (Cx s') = variables_b (Cx this) /\
    react_force s' = react_force this /\
    react_torque s' = react_torque this /\
    pos1 s' = pos1 this /\ pos2 s' = pos2 this /\
    distance s' = distance this /\
    mode s' = mode this /\ mode_sign s' = mode_sign this /\
    Body1 s' = Body1 this /\ Body2 s' = Body2 this /\
    link_active s' = link_active this.
Proof.
  intros H1 H2. unfold Update. simpl. rewrite H1, H2. simpl.
  eexists. split; [reflexivity|]. simpl. rewrite H1, H2. repeat split.
Qed.

Lemma Update_frame_witness :
  Body1 link_disabled = Some (body_at 0 0 0 0) /\
  Body2 link_disabled = Some (body_at 12 0 0 6) /\
  exists s' : ChLinkDistance,
    Update Vnorm_scaled one false link_disabled = Some s' /\
    l_i (Cx s') = two /\ b_i (Cx s') = half /\ link_active s' = false.
Proof.
  split; [reflexivity|]. split; [reflexivity|].
  destruct (Update_frame Vnorm_scaled one false link_disabled
              (body_at 0 0 0 0) (body_at 12 0 0 6) eq_refl eq_refl)
    as (s' & Hret & Hl & Hb & _ & _ & _ & _ & _ & _ & _ & _ & _ & _ & _ & _ & Ha).
  exists s'. split; [exact Hret|].
  rewrite Hl, Hb, Ha. repeat split; vm_compute; reflexivity.
Defined.

(** X18. [Initialize] does not compute the Jacobian: the two rows, the multiplier,
    the bias, the reaction and the activity are after the call what they
    were before it; the rows are those of the new anchors only after the next
    [Update]. *)
Theorem Initialize_frame (b1 b2 : ChBodyFrame) (rel : bool)
    (p1 p2 : ChVector) (auto : bool) (d : double) (m : Mode)
    (this : ChLinkDistance) :
  exists s' : ChLinkDistance,
    Initialize (Some b1) (Some b2) rel p1 p2 auto d m this = Some (s', 1%Z) /\
    Cq_a (Cx s') = Cq_a (Cx this) /\ Cq_b (Cx s') = Cq_b (Cx this) /\
    l_i (Cx s') = l_i (Cx this) /\ b_i (Cx s') = b_i (Cx this) /\
    react_force s' = react_force this /\
    react_torque s' = react_torque this /\
    link_active s' = link_active this.
Proof.
  eexists. split; [reflexivity|].
  destruct rel, auto; simpl; repeat split.
Qed.

(** *** A solver pass: reset, then load *)

Lemma dle_zero_add_r (a r : double) :
  dle a (zero + r)%D = dle a r.
Proof. destruct a as [[]|[]| |[] ? ?], r as [[]|[]| |[] ? ?]; reflexivity. Qed.

Lemma dle_zero_add_l (r b : double) :
  dle (zero + r)%D b = dle r b.
Proof. destruct b as [[]|[]| |[] ? ?], r as [[]|[]| |[] ? ?]; reflexivity. Qed.

(** X19. After [ConstraintsBiReset] and one [ConstraintsBiLoad_C] with clamping,
    the bias of an active element lies inside
    [[-recovery_clamp, recovery_clamp]], whatever it was before the pass and
    whatever the violation is. *)
Theorem Reset_then_BiLoad_C_bounds (factor recovery_clamp : double)
    (this : ChLinkDistance) :
  IsActive this = true ->
  dle (- recovery_clamp) recovery_clamp = true ->
  dle (- recovery_clamp)
      (b_i (Cx (ConstraintsBiLoad_C factor recovery_clamp true
                  (ConstraintsBiReset this)))) = true /\
  dle (b_i (Cx (ConstraintsBiLoad_C factor recovery_clamp true
                  (ConstraintsBiReset this)))) recovery_clamp = true.
Proof.
  intros Hact Hrc.
  destruct (ConstraintsBiLoad_C_adds_clamped factor recovery_clamp
              (ConstraintsBiReset this) Hact Hrc) as (r & Hret & Hlo & Hhi).
  rewrite Hret.
  unfold ConstraintsBiReset, set_Cx, Cx_ops.Set_b_i. cbn [Cx b_i].
  rewrite dle_zero_add_r, dle_zero_add_l.
  split; assumption.
Qed.

Lemma Reset_then_BiLoad_C_bounds_witness :
  IsActive link_min = true /\
  dle (- half) half = true /\
  b_i (Cx (ConstraintsBiLoad_C one half true
             (ConstraintsBiReset (ConstraintsBiLoad_C ten two true link_min))))
    = half /\
  dle (b_i (Cx (ConstraintsBiLoad_C one half true
             (ConstraintsBiReset (ConstraintsBiLoad_C ten two true link_min)))))
      half = true.
Proof.
  assert (Hrc : dle (- half) half = true) by (vm_compute; reflexivity).
  split; [reflexivity|]. split; [exact Hrc|].
  split; [vm_compute; reflexivity|].
  exact (proj2 (Reset_then_BiLoad_C_bounds one half
                  (ConstraintsBiLoad_C ten two true link_min) eq_refl Hrc)).
Defined.
